(** * DocQA: the ingestion pipeline, embedded and checked

    A shallow embedding of [vector_database.py] (the indexer's two entry
    points), [file_processer.py] (the orchestrator) and the splitter
    configuration of [main.py], with the properties the specification
    states about them.

    Python objects that the code mutates in place (the vector store, the
    file system, the logger and standard output) are threaded explicitly
    through a state-and-exception monad. *)

From Stdlib Require Import ZArith String Ascii List Bool Lia.
From stdpp Require Import base option list strings gmap.

Local Open Scope string_scope.
Local Open Scope list_scope.
Local Open Scope Z_scope.

(** ** Python prelude: exceptions, results, the monad *)

Module Py.

(** The part of the exception hierarchy the sources touch.  Everything
    but the last constructor is a subclass of [Exception]; the last one
    stands for the classes that derive from [BaseException] only
    ([KeyboardInterrupt], [SystemExit], [GeneratorExit]). *)
Inductive exc_class : Type :=
  | Exception_                               (* the class Exception itself *)
  | ValueError
  | KeyError
  | FileExistsError
  | NotADirectoryError
  | ExceptionSubclass (name : string)        (* any other subclass of Exception *)
  | BaseExceptionOnly (name : string).

Definition is_Exception (c : exc_class) : bool :=
  match c with
  | BaseExceptionOnly _ => false
  | _ => true
  end.

(** An exception instance: its class, [str(e)], and the [__context__]
    Python attaches when it is raised inside an [except] block. *)
#[local] Unset Elimination Schemes.
Inductive exc : Type :=
  Exc { exc_cls : exc_class; exc_str : string; exc_context : option exc }.
#[local] Set Elimination Schemes.

Inductive result (A : Type) : Type :=
  | Ok (a : A)
  | Raise (e : exc).
Arguments Ok {A} a.
Arguments Raise {A} e.

(** Computations over a state [S] that return or raise. *)
Definition M (S A : Type) : Type := S -> result A * S.

Definition ret {S A} (a : A) : M S A := fun s => (Ok a, s).

Definition bind {S A B} (m : M S A) (k : A -> M S B) : M S B :=
  fun s => match m s with
           | (Ok a, s') => k a s'
           | (Raise e, s') => (Raise e, s')
           end.

Definition raise {S A} (e : exc) : M S A := fun s => (Raise e, s).

(** [try: body  except Exception as e: handler e]: only instances of
    [Exception] are caught. *)
Definition try_except_Exception {S A} (body : M S A) (handler : exc -> M S A)
  : M S A :=
  fun s => match body s with
           | (Ok a, s') => (Ok a, s')
           | (Raise e, s') =>
               if is_Exception (exc_cls e) then handler e s' else (Raise e, s')
           end.

(** [for x in xs: body x] *)
Fixpoint for_each {S A} (xs : list A) (body : A -> M S unit) : M S unit :=
  match xs with
  | [] => ret tt
  | x :: xs' => bind (body x) (fun _ => for_each xs' body)
  end.

End Py.

Import Py.

Notation "x <- m ;; k" := (bind m (fun x => k))
  (at level 100, m at next level, right associativity).
Notation "m ;; k" := (bind m (fun _ => k))
  (at level 100, right associativity).

(** ** Strings and paths *)

Module Str.

(** [s[n:]] *)
Fixpoint drop (n : nat) (s : string) : string :=
  match n, s with
  | O, _ => s
  | S _, EmptyString => EmptyString
  | S n', String _ s' => drop n' s'
  end.

(** [s.rfind(c) + 1]: 0 when [c] does not occur. *)
Fixpoint rfind_plus1 (c : ascii) (s : string) : nat :=
  match s with
  | EmptyString => O
  | String a s' =>
      match rfind_plus1 c s' with
      | O => if Ascii.eqb a c then 1%nat else O
      | S i => S (S i)
      end
  end.

(** [posixpath.basename]: [i = p.rfind('/') + 1; return p[i:]]. *)
Definition basename (p : string) : string := drop (rfind_plus1 "/" p) p.

(** [str.lower] on the ASCII letters.  Python also lowers the cased
    letters outside ASCII; none of them maps to a character of the three
    suffixes tested below, so the suffix tests see no difference. *)
Definition lower_ascii (a : ascii) : ascii :=
  let n := nat_of_ascii a in
  if (Nat.leb 65 n && Nat.leb n 90)%bool then ascii_of_nat (n + 32) else a.

Fixpoint lower (s : string) : string :=
  match s with
  | EmptyString => EmptyString
  | String a s' => String (lower_ascii a) (lower s')
  end.

(** [s.endswith(suffix)] *)
Definition endswith (s suffix : string) : bool :=
  let n := String.length s in
  let k := String.length suffix in
  (Nat.leb k n && String.eqb (drop (n - k) s) suffix)%bool.

(** [s.startswith(prefix)] *)
Definition startswith (s pre : string) : bool := String.prefix pre s.

(** [posixpath.join(a, b)] for two components. *)
Definition path_join (a b : string) : string :=
  if startswith b "/" then b
  else if (String.eqb a "" || endswith a "/")%bool then a +:+ b
  else a +:+ "/" +:+ b.

(** The bytes of ASCII text. *)
Definition is_ascii_byte (a : ascii) : bool := Nat.ltb (nat_of_ascii a) 128.

Fixpoint is_ascii (s : string) : bool :=
  match s with
  | EmptyString => true
  | String a s' => (is_ascii_byte a && is_ascii s')%bool
  end.

Fixpoint has_byte (c : ascii) (s : string) : bool :=
  match s with
  | EmptyString => false
  | String a s' => (Ascii.eqb a c || has_byte c s')%bool
  end.

(** A name that is one component of a POSIX path: not empty, not [.] or
    [..], without separator or NUL, and of at most 255 bytes. *)
Definition single_component (name : string) : bool :=
  (negb (String.eqb name "") && negb (String.eqb name ".")
   && negb (String.eqb name "..") && negb (has_byte "/" name)
   && negb (has_byte (ascii_of_nat 0) name)
   && Nat.leb (String.length name) 255)%bool.

(** A text is held as the bytes the file system has for it: a name that
    [os.listdir] had to escape (bytes that are not UTF-8) is held as
    those bytes.  What a strict UTF-8 stream can write is then the
    well-formed UTF-8. *)
Definition between (lo hi : nat) (a : ascii) : bool :=
  (Nat.leb lo (nat_of_ascii a) && Nat.leb (nat_of_ascii a) hi)%bool.

(** For a leading byte: how many bytes follow it, and the range of the
    first of them. *)
Definition utf8_lead (a : ascii) : option (nat * (nat * nat)) :=
  let n := nat_of_ascii a in
  if Nat.ltb n 128 then Some (0, (0, 0))%nat
  else if between 194 223 a then Some (1, (128, 191))%nat
  else if Nat.eqb n 224 then Some (2, (160, 191))%nat
  else if Nat.eqb n 237 then Some (2, (128, 159))%nat
  else if between 225 239 a then Some (2, (128, 191))%nat
  else if Nat.eqb n 240 then Some (3, (144, 191))%nat
  else if Nat.eqb n 244 then Some (3, (128, 143))%nat
  else if between 241 243 a then Some (3, (128, 191))%nat
  else None.

Fixpoint utf8 (s : string) : bool :=
  match s with
  | EmptyString => true
  | String a s1 =>
      match utf8_lead a with
      | Some (O, _) => utf8 s1
      | Some (1%nat, (lo, hi)) =>
          match s1 with
          | String b s2 => (between lo hi b && utf8 s2)%bool
          | _ => false
          end
      | Some (2%nat, (lo, hi)) =>
          match s1 with
          | String b (String c s3) =>
              (between lo hi b && between 128 191 c && utf8 s3)%bool
          | _ => false
          end
      | Some (3%nat, (lo, hi)) =>
          match s1 with
          | String b (String c (String d s4)) =>
              (between lo hi b && between 128 191 c && between 128 191 d
               && utf8 s4)%bool
          | _ => false
          end
      | _ => false
      end
  end.

End Str.

(** ** vector_database.py *)

Module VectorDatabase.

(** Metadata values: the dictionaries built here hold strings and one
    integer. *)
Inductive pyval : Type :=
  | PyStr (s : string)
  | PyInt (z : Z).

(** [langchain.schema.Document(page_content=..., metadata=...)] *)
Record Document : Type := mkDocument {
  page_content : string;
  metadata : gmap string pyval
}.

Section Insetters.

(** The vector store is an opaque capability: a state [V] and an
    [add_documents] that may change it and may raise. *)
Context {V : Type}.
Variable add_documents : list Document -> V -> result unit * V.

(** The store object together with the record of what it was asked to
    add: one entry per invocation of [add_documents], oldest first. *)
Record store : Type := mkStore {
  db : V;
  add_calls : list (list Document)
}.

(** [vector_db.add_documents(documents=documents)] *)
Definition call_add_documents (documents : list Document) : M store unit :=
  fun w =>
    let '(r, v') := add_documents documents (db w) in
    (r, {| db := v'; add_calls := (add_calls w ++ [documents])%list |}).

Definition store_failed_msg : string :=
  "An error occurred while adding documents to the vector database: ".

(** [raise Exception(f"...: {e}")] inside [except Exception as e]. *)
Definition wrap_store_failure (e : exc) : M store unit :=
  raise (Exc Exception_ (store_failed_msg +:+ exc_str e) (Some e)).

Definition image_document (image_path pdf_name : string) (page_no : Z)
    (text : string) : Document :=
  mkDocument text
    (<["Source" := PyStr (Str.basename pdf_name)]>
     (<["PageNo" := PyInt page_no]>
      (<["ImagePath" := PyStr image_path]>
       (<["Type" := PyStr "Image"]> ∅)))).

Definition text_document (pdf_name : string) (page_no : Z) (text : string)
  : Document :=
  mkDocument text
    (<["Source" := PyStr (Str.basename pdf_name)]>
     (<["PageNo" := PyInt page_no]>
      (<["Type" := PyStr "Text"]> ∅))).

(** [documents = []; for x in xs: documents.append(mk x)] *)
Definition append_each {A} (mk : string -> A) (xs : list string) : list A :=
  fold_left (fun documents text => (documents ++ [mk text])%list) xs [].

Definition image_db_insetter (image_summaries_texts : list string)
    (image_path pdf_name : string) (page_no : Z) : M store unit :=
  if bool_decide (image_summaries_texts = []) then
    raise (Exc ValueError "The image summaries list cannot be empty." None)
  else if page_no <? 1 then
    raise (Exc ValueError "Page number must be a positive integer." None)
  else
    let documents :=
      append_each (image_document image_path pdf_name page_no)
                  image_summaries_texts in
    try_except_Exception (call_add_documents documents) wrap_store_failure.

Definition text_db_insetter (texts : list string) (pdf_name : string)
    (page_no : Z) : M store unit :=
  if bool_decide (texts = []) then
    raise (Exc ValueError "The texts list cannot be empty." None)
  else if page_no <? 1 then
    raise (Exc ValueError "Page number must be a positive integer." None)
  else
    let documents := append_each (text_document pdf_name page_no) texts in
    try_except_Exception (call_add_documents documents) wrap_store_failure.

End Insetters.

Arguments store V : clear implicits.

(** *** The data model's words for a stored document *)

(** Source, PageNo and Type are as given, and ImagePath is [image_path]
    when one is given and absent otherwise. *)
Definition provenance (d : Document) (source : string) (page_no : Z)
    (type : string) (image_path : option string) : Prop :=
  metadata d !! "Source" = Some (PyStr source) /\
  metadata d !! "PageNo" = Some (PyInt page_no) /\
  metadata d !! "Type" = Some (PyStr type) /\
  metadata d !! "ImagePath" = PyStr <$> image_path.

(** PageNo is at least 1, Type is Text or Image, and ImagePath is there
    exactly for an Image. *)
Definition metadata_invariant (d : Document) : Prop :=
  (exists p, metadata d !! "PageNo" = Some (PyInt p) /\ 1 <= p) /\
  (metadata d !! "Type" = Some (PyStr "Text") \/
   metadata d !! "Type" = Some (PyStr "Image")) /\
  (is_Some (metadata d !! "ImagePath") <->
   metadata d !! "Type" = Some (PyStr "Image")).

(** The invariant of the data model: the above, and content that is not
    empty. *)
Definition data_model_invariant (d : Document) : Prop :=
  metadata_invariant d /\ page_content d <> "".

(** The two operations of the indexer, and what it takes for an error to
    tell them apart: some reading of the error names the operation. *)
Inductive operation : Type := TextInsertion | ImageInsertion.

Definition identifies_operation (from_text from_image : result unit) : Prop :=
  exists which : result unit -> operation,
    which from_text = TextInsertion /\ which from_image = ImageInsertion.

End VectorDatabase.

(** ** file_processer.py *)

Module FileProcesser.

(** *** The configuration object

    [config["settings"]] is a dictionary loaded at start-up; a value is a
    string or [None]. *)
Inductive cfgval : Type :=
  | CfgNone
  | CfgStr (s : string).

(** [d.get(key, default)] *)
Definition dict_get (d : gmap string cfgval) (key : string) (default : cfgval)
  : cfgval :=
  match d !! key with
  | Some v => v
  | None => default
  end.

(** [v or fallback], for a string fallback: [None] and the empty string
    are falsy. *)
Definition or_str (v : cfgval) (fallback : string) : string :=
  match v with
  | CfgNone => fallback
  | CfgStr s => if String.eqb s "" then fallback else s
  end.

(** [v != filename] for a string [filename] *)
Definition ne_str (v : cfgval) (filename : string) : bool :=
  match v with
  | CfgNone => true
  | CfgStr s => negb (String.eqb s filename)
  end.

(** [repr] of a string key without quotes or backslashes, which is what
    [str] of a [KeyError] shows. *)
Definition repr_key (key : string) : string := "'" +:+ key +:+ "'".

(** *** The data folder

    What the run can observe of the file system: whether [data_folder]
    exists, and the entries of that one directory, which the process
    may read and write.  The file system is a POSIX one: names are
    compared byte for byte.  Entry names are single path components;
    deeper levels are not followed. *)
Inductive entry_kind : Type := RegularFile | Directory.

Inductive node : Type :=
  | Missing
  | NotADirectory
  | Folder (entries : list (string * entry_kind)).

Fixpoint find_entry (name : string) (entries : list (string * entry_kind))
  : option entry_kind :=
  match entries with
  | [] => None
  | (n, k) :: rest => if String.eqb n name then Some k else find_entry name rest
  end.

(** *** What a run leaves behind *)
Inductive level : Type := INFO | WARNING | ERROR.

Inductive extractor : Type := PDF | TXT | WORD.

Inductive event : Type :=
  | Logged (lvl : level) (msg : string)          (* logger.<lvl>(msg) *)
  | Printed (msg : string)                       (* print(msg) *)
  | Called (which : extractor) (file_path : string).

Section Orchestrator.

(** The collaborators are passed as untyped objects; the store is a
    state that the extractors change, the client and the chunker are
    handed on untouched. *)
Context {V Client Chunker : Type}.

Variable config_settings : gmap string cfgval.

(** What the process runs in: whether standard output can encode a
    line, the order in which the file system lists names, and what
    [os.makedirs] does to the data folder for a path that is not one
    component below it (the folder is followed one level deep only). *)
Variable stdout_encodes : string -> bool.
Variable listing_order : list string -> list string.
Variable os_makedirs_beyond : string -> node -> result unit * node.

(** The three extractors live in other modules of the repository; each
    may change the store and may raise, also after it has changed the
    store. *)
Variable process_pdf :
  string -> string -> Client -> string -> Chunker -> V -> result unit * V.
Variable process_text : string -> Chunker -> V -> result unit * V.
Variable process_word_text : string -> Chunker -> V -> result unit * V.

Record world : Type := mkWorld {
  fs : node;
  vector_db : V;
  trace : list event
}.

Definition emit (ev : event) : M world unit :=
  fun w => (Ok tt, {| fs := fs w; vector_db := vector_db w;
                      trace := trace w ++ [ev] |}).

(** [logger] is imported from a module that is not among the sources;
    it is taken to be a [logging.Logger], whose handlers keep their own
    failures to themselves, so that a call of the logger returns. *)
Definition logger_info (msg : string) : M world unit := emit (Logged INFO msg).
Definition logger_warning (msg : string) : M world unit :=
  emit (Logged WARNING msg).
Definition logger_error (msg : string) : M world unit := emit (Logged ERROR msg).

(** [print(msg)]: a line that standard output cannot encode is not
    written, and [UnicodeEncodeError] is raised.  The text of that
    error names the codec and the place in the line; it is not
    followed here, and stands as one fixed text. *)
Definition encode_error : exc :=
  Exc (ExceptionSubclass "UnicodeEncodeError") "codec can't encode characters"
      None.

Definition print (msg : string) : M world unit :=
  if stdout_encodes msg then emit (Printed msg) else raise encode_error.

(** [print(msg)] for the one line that quotes nothing but the path the
    caller passed in, which the caller is taken to be able to print. *)
Definition print_own (msg : string) : M world unit := emit (Printed msg).

(** Statements inside [except ... as e:]: what they raise has [e] as its
    context. *)
Definition while_handling {A} (e : exc) (m : M world A) : M world A :=
  fun w =>
    match m w with
    | (Raise e', w') => (Raise (Exc (exc_cls e') (exc_str e') (Some e)), w')
    | r => r
    end.

(** Run an extractor on the store; the call itself is recorded. *)
Definition call (which : extractor) (file_path : string)
    (f : V -> result unit * V) : M world unit :=
  fun w =>
    let '(r, v') := f (vector_db w) in
    (r, {| fs := fs w; vector_db := v';
           trace := trace w ++ [Called which file_path] |}).

(** [os.path.exists(data_folder)] *)
Definition os_path_exists : M world bool :=
  fun w => (Ok (match fs w with Missing => false | _ => true end), w).

(** [os.makedirs(os.path.join(data_folder, name), exist_ok=True)].  For
    a [name] that is one component, the directory becomes an entry of
    the data folder unless it is one already; an entry of that name
    that is not a directory makes the call fail.  Any other [name]
    ([.], [..], several components, an absolute path) names no entry of
    its own in the folder, and what the call does is left to
    [os_makedirs_beyond]. *)
Definition os_makedirs_exist_ok (name : string) : M world unit :=
  fun w =>
    if Str.single_component name then
      match fs w with
      | Missing =>
          (* the parents are created as well *)
          (Ok tt, {| fs := Folder [(name, Directory)];
                     vector_db := vector_db w; trace := trace w |})
      | NotADirectory => (Raise (Exc NotADirectoryError name None), w)
      | Folder entries =>
          match find_entry name entries with
          | Some Directory => (Ok tt, w)
          | Some RegularFile => (Raise (Exc FileExistsError name None), w)
          | None =>
              (Ok tt, {| fs := Folder (entries ++ [(name, Directory)]);
                         vector_db := vector_db w; trace := trace w |})
          end
      end
    else
      let '(r, n') := os_makedirs_beyond name (fs w) in
      (r, {| fs := n'; vector_db := vector_db w; trace := trace w |}).

(** [os.listdir(data_folder)]: the names of the entries, in the order
    of the file system. *)
Definition os_listdir : M world (list string) :=
  fun w =>
    match fs w with
    | Folder entries => (Ok (listing_order (map fst entries)), w)
    | NotADirectory => (Raise (Exc NotADirectoryError "" None), w)
    | Missing => (Raise (Exc (ExceptionSubclass "FileNotFoundError") "" None), w)
    end.

(** [config["settings"].get("image_directory_name", "extracted_images")
    or "extracted_images"] *)
Definition extracted_images_foldername : string :=
  or_str (dict_get config_settings "image_directory_name"
                   (CfgStr "extracted_images"))
         "extracted_images".

(** [config["settings"][key]] *)
Definition config_settings_getitem (key : string) : M world cfgval :=
  match config_settings !! key with
  | Some v => ret v
  | None => raise (Exc KeyError (repr_key key) None)
  end.

Section Run.

Variables (data_folder : string) (openai_client : Client)
          (model_name : string) (text_chunker : Chunker).

(** The statements under [try:] for one [filename]. *)
Definition dispatch (output_folder filename : string) : M world unit :=
  let file_path := Str.path_join data_folder filename in
  if Str.endswith (Str.lower filename) ".pdf" then
    logger_info ("Processing PDF file: " +:+ filename) ;;
    print ("Processing PDF file: " +:+ filename) ;;
    call PDF file_path
      (process_pdf file_path output_folder openai_client model_name
                   text_chunker) ;;
    logger_info ("Processed PDF file: " +:+ filename) ;;
    print ("Processed PDF file: " +:+ filename)
  else if Str.endswith (Str.lower filename) ".txt" then
    logger_info ("Processing TXT file: " +:+ filename) ;;
    print ("Processing TXT file: " +:+ filename) ;;
    call TXT file_path (process_text file_path text_chunker) ;;
    logger_info ("Processed TXT file: " +:+ filename) ;;
    print ("Processed TXT file: " +:+ filename)
  else if Str.endswith (Str.lower filename) ".docx" then
    logger_info ("Processing Word file: " +:+ filename) ;;
    print ("Processing Word file: " +:+ filename) ;;
    call WORD file_path (process_word_text file_path text_chunker) ;;
    logger_info ("Processed Word file: " +:+ filename) ;;
    print ("Processed Word file: " +:+ filename)
  else
    v <- config_settings_getitem "image_directory_name" ;;
    if ne_str v filename then
      logger_warning ("Unsupported file type: " +:+ filename) ;;
      print ("Warning: Unsupported file type: " +:+ filename)
    else ret tt.

(** The [except Exception as e:] block. *)
Definition report_failure (filename : string) (e : exc) : M world unit :=
  while_handling e
    (logger_error ("Error processing file " +:+ filename +:+ ": "
                   +:+ exc_str e) ;;
     print ("Error processing file " +:+ filename +:+ ": " +:+ exc_str e)).

(** The body of the [for] loop. *)
Definition process_file (output_folder filename : string) : M world unit :=
  try_except_Exception (dispatch output_folder filename)
                       (report_failure filename).

Definition process_all_files : M world unit :=
  found <- os_path_exists ;;
  if negb found then
    logger_error ("The specified data folder does not exist: " +:+ data_folder) ;;
    print_own ("Error: The specified data folder does not exist: "
               +:+ data_folder)
  else
    let output_folder := Str.path_join data_folder extracted_images_foldername in
    os_makedirs_exist_ok extracted_images_foldername ;;
    files <- os_listdir ;;
    if bool_decide (files = []) then
      logger_warning "No files found in the specified data folder." ;;
      print "Warning: No files found in the specified data folder."
    else
      for_each files (process_file output_folder) ;;
      logger_info "All files have been processed." ;;
      print "All files have been processed.".

End Run.

End Orchestrator.

Arguments world V : clear implicits.

(** Reading a trace. *)
Definition is_call (ev : event) : bool :=
  match ev with Called _ _ => true | _ => false end.

Definition is_warning (ev : event) : bool :=
  match ev with Logged WARNING _ => true | _ => false end.

(** *** The words of the specification *)

(** The kind of a source file: the extractor its extension selects, read
    without regard to case, or none when the file is unsupported. *)
Definition classify (filename : string) : option extractor :=
  if Str.endswith (Str.lower filename) ".pdf" then Some PDF
  else if Str.endswith (Str.lower filename) ".txt" then Some TXT
  else if Str.endswith (Str.lower filename) ".docx" then Some WORD
  else None.

(** The extractor call a file of the listing is due. *)
Definition expected_calls (data_folder filename : string) : list event :=
  match classify filename with
  | Some which => [Called which (Str.path_join data_folder filename)]
  | None => []
  end.

(** An extraction, chunking or indexing failure is an instance of
    [Exception]. *)
Definition raises_only_Exception {V} (f : V -> result unit * V) : Prop :=
  forall v e v', f v = (Raise e, v') -> is_Exception (exc_cls e) = true.

(** The text of every failure is one that standard output can
    encode. *)
Definition failures_can_be_shown (encodes : string -> bool) {V}
    (f : V -> result unit * V) : Prop :=
  forall v e v', f v = (Raise e, v') -> encodes (exc_str e) = true.

(** A standard output that writes ASCII text, and writes two texts put
    together when it writes each. *)
Definition sound_stdout (encodes : string -> bool) : Prop :=
  (forall s, Str.is_ascii s = true -> encodes s = true) /\
  (forall a b, encodes a = true -> encodes b = true ->
               encodes (a +:+ b) = true).

(** A file system that lists what is there, in an order of its own. *)
Definition lists_what_is_there (order : list string -> list string) : Prop :=
  forall names, Permutation (order names) names.

(** The same world with more events on its trace. *)
Definition with_events {V} (w : world V) (evs : list event) : world V :=
  {| fs := fs w; vector_db := vector_db w; trace := trace w ++ evs |}.

End FileProcesser.

(** ** main.py: the splitter handed to the pipeline *)

Module Chunker.

(** What [main] configures on the splitter it builds:
    [RecursiveCharacterTextSplitter(chunk_size=..., chunk_overlap=...,
    length_function=len, is_separator_regex=False)]. *)
Record TextSplitter : Type := mkTextSplitter {
  chunk_size : Z;
  chunk_overlap : Z
}.

(** [text_chunker] of [main], from the two entries of
    [config["text_splitter"]]. *)
Definition text_chunker (cfg_chunk_size cfg_chunk_overlap : Z) : TextSplitter :=
  {| chunk_size := cfg_chunk_size; chunk_overlap := cfg_chunk_overlap |}.

(** [chunkSize] positive, [chunkOverlap] in [[0, chunkSize)]. *)
Definition valid (c : TextSplitter) : bool :=
  (0 <? chunk_size c) && (0 <=? chunk_overlap c)
  && (chunk_overlap c <? chunk_size c).

(** [s[:n]] *)
Fixpoint take (n : nat) (s : string) : string :=
  match n, s with
  | O, _ => EmptyString
  | S _, EmptyString => EmptyString
  | S n', String a s' => String a (take n' s')
  end.

(** Modelled from the spec: the splitting itself, which is the method
    [split_text] of the splitter class and is not part of the sources.
    The text is cut by character count into windows of [size]
    characters, each starting [size - overlap] characters after the
    previous one, so that neighbours share [overlap] characters; the
    last window takes what is left.  [splits size overlap T r] reads: a
    call of split on [T] returns the sequence [r]. *)
Inductive splits (size overlap : nat) : string -> list string -> Prop :=
  | splits_nothing :
      splits size overlap "" []
  | splits_last T :
      T <> "" -> (String.length T <= size)%nat ->
      splits size overlap T [T]
  | splits_window T rest :
      (size < String.length T)%nat ->
      splits size overlap (Str.drop (size - overlap) T) rest ->
      splits size overlap T (take size T :: rest).

(** The same, as a function; [fuel] bounds the number of windows. *)
Fixpoint windows (fuel size overlap : nat) (T : string) : list string :=
  match fuel with
  | O => []
  | S fuel' =>
      if (String.length T =? 0)%nat then []
      else if (String.length T <=? size)%nat then [T]
      else take size T :: windows fuel' size overlap (Str.drop (size - overlap) T)
  end.

(** Modelled from the spec: a call of split, which fails fast with a
    configuration error when the overlap is not below the chunk size. *)
Definition split (c : TextSplitter) (T : string) : result (list string) :=
  if valid c then
    Ok (windows (S (String.length T)) (Z.to_nat (chunk_size c))
                (Z.to_nat (chunk_overlap c)) T)
  else Raise (Exc (ExceptionSubclass "ConfigurationError")
                  "chunk overlap must be smaller than chunk size" None).

(** A call of split on the splitter [c] returns [r]. *)
Definition split_returns (c : TextSplitter) (T : string) (r : list string)
  : Prop :=
  valid c = true /\
  splits (Z.to_nat (chunk_size c)) (Z.to_nat (chunk_overlap c)) T r.

End Chunker.

(** ** Concrete collaborators, for running the embedding *)

Module Demo.

Import VectorDatabase FileProcesser.

(** A store that keeps what it is given. *)
Definition keep_all (documents : list Document) (v : list Document)
  : result unit * list Document :=
  (Ok tt, v ++ documents).

(** A store that rejects every insertion with [e]. *)
Definition reject_with (e : exc) (documents : list Document)
    (v : list Document) : result unit * list Document :=
  (Raise e, v).

Definition empty_store : store (list Document) :=
  {| db := []; add_calls := [] |}.

Definition connection_lost : exc :=
  Exc (ExceptionSubclass "ConnectionError") "connection lost" None.

Definition interrupted : exc :=
  Exc (BaseExceptionOnly "KeyboardInterrupt") "" None.

(** Extractors over a store that lists the paths indexed so far. *)
Definition corrupt_pdf (file_path output_folder : string) (client : unit)
    (model_name : string) (chunker : unit) (v : list string)
  : result unit * list string :=
  (Raise (Exc (ExceptionSubclass "PdfReadError") "EOF marker not found" None),
   v).

Definition interrupted_pdf (file_path output_folder : string) (client : unit)
    (model_name : string) (chunker : unit) (v : list string)
  : result unit * list string :=
  (Raise interrupted, v).

Definition index_text (file_path : string) (chunker : unit) (v : list string)
  : result unit * list string :=
  (Ok tt, v ++ [file_path]).

Definition configured (name : string) : gmap string cfgval :=
  {[ "image_directory_name" := CfgStr name ]}.

Definition start (n : node) : world (list string) :=
  {| fs := n; vector_db := []; trace := [] |}.

(** A file system that lists names as they were put, and keeps the data
    folder as it is for paths that lead beyond it. *)
Definition as_put (names : list string) : list string := names.

Definition untouched (name : string) (n : node) : result unit * node :=
  (Ok tt, n).

(** A name that [os.listdir] had to escape: the byte FF, then [.xyz]. *)
Definition escaped_name : string := String (ascii_of_nat 255) ".xyz".

(** A run on a strict UTF-8 standard output. *)
Definition run (settings : gmap string cfgval) (n : node)
  : result unit * world (list string) :=
  process_all_files settings Str.utf8 as_put untouched corrupt_pdf index_text
                    index_text "data" tt "gpt-4o" tt (start n).

End Demo.

(** ** vector_database.py: the retriever *)

Module Retrieval.

Import VectorDatabase.

(** The values a caller may pass where a string is expected. *)
Inductive pyobj : Type :=
  | ObjNone
  | ObjStr (s : string)
  | ObjInt (z : Z).

(** [bool(o)] *)
Definition truthy (o : pyobj) : bool :=
  match o with
  | ObjNone => false
  | ObjStr s => negb (String.eqb s "")
  | ObjInt z => negb (z =? 0)
  end.

(** [isinstance(o, str)] *)
Definition isinstance_str (o : pyobj) : bool :=
  match o with
  | ObjStr _ => true
  | _ => false
  end.

(** [logger.<level>(msg, *args)]: the record keeps the format and its
    arguments. *)
Record log_record : Type := mkLogRecord {
  rec_level : FileProcesser.level;
  rec_msg : string;
  rec_args : list pyobj
}.

Section Retriever.

(** The store [V], the retriever made from it, and the state [B] that
    a query may read and change. *)
Context {V Retr B : Type}.

Variable as_retriever : V -> string -> gmap string Z -> result Retr.

(** [vector_db.as_retriever(search_type=search_type,
    search_kwargs={"k": top_k})] *)
Definition create_retriever (vector_db : V) (search_type : string) (top_k : Z)
  : result Retr :=
  as_retriever vector_db search_type {[ "k" := top_k ]}.

Variable invoke : Retr -> pyobj -> B -> result (list Document) * B.

(** The state behind the retriever, the inputs it was invoked with
    (oldest first) and the log. *)
Record session : Type := mkSession {
  backend : B;
  invoked : list pyobj;
  records : list log_record
}.

Definition log (lvl : FileProcesser.level) (msg : string) (args : list pyobj)
  : M session unit :=
  fun w => (Ok tt, {| backend := backend w; invoked := invoked w;
                      records := records w ++ [mkLogRecord lvl msg args] |}).

(** [retriever.invoke(input=question)] *)
Definition call_invoke (retriever : Retr) (question : pyobj)
  : M session (list Document) :=
  fun w =>
    let '(r, b') := invoke retriever question (backend w) in
    (r, {| backend := b'; invoked := invoked w ++ [question];
           records := records w |}).

Definition retrieve_documents (retriever : Retr) (question : pyobj)
  : M session (list Document) :=
  if negb (truthy question) || negb (isinstance_str question) then
    log FileProcesser.ERROR "Invalid question provided: %s" [question] ;;
    raise (Exc ValueError "The question must be a non-empty string." None)
  else
    try_except_Exception
      (results <- call_invoke retriever question ;;
       log FileProcesser.INFO "Retrieved %d documents for question: %s"
           [ObjInt (Z.of_nat (length results)); question] ;;
       ret results)
      (fun e =>
         log FileProcesser.ERROR "Error retrieving documents: %s"
             [ObjStr (exc_str e)] ;;
         ret []).

End Retriever.

Arguments session B : clear implicits.

(** A question the validation lets through: a string that is not
    empty. *)
Definition acceptable (question : pyobj) : Prop :=
  exists q, question = ObjStr q /\ q <> "".

End Retrieval.

(** ** main.py: the question loop and its log *)

Module Main.

Import FileProcesser.

(** One answered question, as appended to [log_data]. *)
Record qa_record : Type := mkQA {
  Question : string;
  Response : string;
  References : string
}.

(** [mode='a'] and [mode='w'] of [pd.ExcelWriter]. *)
Inductive mode : Type := ModeAppend | ModeWrite.

(** What a session leaves behind: log lines, output, and the calls made
    to the collaborators, in order. *)
Inductive event : Type :=
  | Logged (lvl : level) (msg : string)
  | Printed (msg : string)
  | Prompted (prompt : string)                 (* input(prompt) *)
  | Asked (question : string)                  (* generate_answer_from_vector_db *)
  | Made (path : string)                       (* os.makedirs(path) *)
  | Opened (path : string) (m : mode)          (* pd.ExcelWriter(path, mode=m) *)
  | Wrote (data : list qa_record) (header : bool) (startrow : Z)
                                               (* df.to_excel(writer, ...) *)
  | Closed.                                    (* leaving the with block *)

Definition newline : string := String (ascii_of_nat 10) EmptyString.

Section Session.

(** Everything outside the process (files, workbook, store, model) is
    one state [X]; [W] is an open workbook writer. *)
Context {X W Retr Client : Type}.

Variable os_path_exists_ : string -> X -> bool.
Variable os_makedirs_ : string -> X -> result unit * X.
Variable ExcelWriter_ : string -> mode -> X -> result W * X.
Variable sheet_max_row_ : W -> X -> result Z.
Variable to_excel_ : list qa_record -> W -> bool -> Z -> X -> result unit * X.
Variable writer_close_ : W -> X -> result unit * X.
Variable generate_answer_from_vector_db :
  Retr -> string -> Z -> Client -> X -> result (string * string) * X.

Record world : Type := mkWorld {
  ext : X;
  events : list event
}.

Definition emit (ev : event) : M world unit :=
  fun w => (Ok tt, {| ext := ext w; events := events w ++ [ev] |}).

(** A call that changes the outside state; the call is recorded. *)
Definition effect {A} (ev : event) (f : X -> result A * X) : M world A :=
  fun w =>
    let '(r, x') := f (ext w) in
    (r, {| ext := x'; events := events w ++ [ev] |}).

(** A call that only reads the outside state. *)
Definition observe {A} (f : X -> result A) : M world A :=
  fun w => (f (ext w), w).

Definition logger_info (msg : string) : M world unit := emit (Logged INFO msg).
Definition logger_warning (msg : string) : M world unit :=
  emit (Logged WARNING msg).
Definition logger_error (msg : string) : M world unit :=
  emit (Logged ERROR msg).
Definition print (msg : string) : M world unit := emit (Printed msg).

Definition os_path_exists (path : string) : M world bool :=
  observe (fun x => Ok (os_path_exists_ path x)).
Definition os_makedirs (path : string) : M world unit :=
  effect (Made path) (os_makedirs_ path).
Definition ExcelWriter (path : string) (m : mode) : M world W :=
  effect (Opened path m) (ExcelWriter_ path m).
Definition sheet_max_row (writer : W) : M world Z :=
  observe (sheet_max_row_ writer).
Definition to_excel (df : list qa_record) (writer : W) (header : bool)
    (startrow : Z) : M world unit :=
  effect (Wrote df header startrow) (to_excel_ df writer header startrow).
Definition writer_close (writer : W) : M world unit :=
  effect Closed (writer_close_ writer).

(** [with enter as r: body r], for a context manager whose exit closes
    [r] and suppresses nothing: the exit runs whether or not the body
    raised, and an exception of the exit replaces the body's, which
    becomes its context. *)
Definition with_ {A} (enter : M world W) (body : W -> M world A) : M world A :=
  fun w =>
    match enter w with
    | (Raise e, w1) => (Raise e, w1)
    | (Ok r, w1) =>
        match body r w1 with
        | (Ok a, w2) =>
            match writer_close r w2 with
            | (Ok _, w3) => (Ok a, w3)
            | (Raise e, w3) => (Raise e, w3)
            end
        | (Raise e, w2) =>
            match writer_close r w2 with
            | (Ok _, w3) => (Raise e, w3)
            | (Raise e', w3) =>
                (Raise (Exc (exc_cls e') (exc_str e') (Some e)), w3)
            end
        end
    end.

Definition log_to_excel (data : list qa_record)
    (output_folder output_excel_file_name : string) : M world unit :=
  if bool_decide (data = []) then
    logger_warning "No data to log."
  else
    (* pd.DataFrame(data): the records themselves *)
    let df := data in
    try_except_Exception
      (found <- os_path_exists output_folder ;;
       (if negb found then os_makedirs output_folder else ret tt) ;;
       let excelfile_full_path :=
         Str.path_join output_folder output_excel_file_name in
       there <- os_path_exists excelfile_full_path ;;
       if there then
         with_ (ExcelWriter excelfile_full_path ModeAppend) (fun writer =>
           start_row <- sheet_max_row writer ;;
           to_excel df writer false start_row ;;
           logger_info ("Appended data to " +:+ output_excel_file_name
                        +:+ ".") ;;
           print ("Appended results to " +:+ output_excel_file_name +:+ "."))
       else
         with_ (ExcelWriter excelfile_full_path ModeWrite) (fun writer =>
           to_excel df writer true 0 ;;
           logger_info ("Created new file and saved results to "
                        +:+ output_excel_file_name +:+ ".") ;;
           print ("Created new file and saved results to "
                  +:+ output_excel_file_name +:+ ".")))
      (fun e => logger_error ("Error logging data to Excel: " +:+ exc_str e)).

Definition prompt : string := "Enter Question (or 'exit' to quit): ".

Section Ask.

Variables (retriever : Retr) (openai_client : Client) (max_images : Z)
          (output_folder output_excel_file_name : string).

(** The [while True:] loop, run on the lines still to come from standard
    input; the result is the lines left unread.  [input] shows the
    prompt and raises [EOFError] when no line is left. *)
Fixpoint ask_question_loop (stdin : list string) (log_data : list qa_record)
  : M world (list string) :=
  match stdin with
  | [] =>
      emit (Prompted prompt) ;;
      raise (Exc (ExceptionSubclass "EOFError") "EOF when reading a line" None)
  | question :: stdin' =>
      emit (Prompted prompt) ;;
      if String.eqb (Str.lower question) "exit" then ret stdin'
      else
        answered <-
          try_except_Exception
            (answer <- effect (Asked question)
                         (generate_answer_from_vector_db retriever question
                            max_images openai_client) ;;
             let '(references, response) := answer in
             print ("References:" +:+ newline +:+ references +:+ newline
                    +:+ "Response:" +:+ newline +:+ response) ;;
             ret (Some (log_data ++ [mkQA question response references])))
            (fun e =>
               logger_error ("Error generating answer: " +:+ exc_str e) ;;
               ret None) ;;
        match answered with
        | None => ask_question_loop stdin' log_data          (* continue *)
        | Some log_data' =>
            log_to_excel log_data' output_folder output_excel_file_name ;;
            ask_question_loop stdin' []
        end
  end.

Definition ask_question (stdin : list string) : M world (list string) :=
  ask_question_loop stdin [].

End Ask.

End Session.

Arguments world X : clear implicits.

(** Reading a session's events. *)
Definition asked (ev : event) : list string :=
  match ev with Asked q => [q] | _ => [] end.

Definition written (ev : event) : list (list qa_record) :=
  match ev with Wrote data _ _ => [data] | _ => [] end.

Definition opened (ev : event) : list (string * mode) :=
  match ev with Opened p m => [(p, m)] | _ => [] end.

Definition made (ev : event) : list string :=
  match ev with Made p => [p] | _ => [] end.

(** The word that ends the loop, in any case of letters.  (No letter
    outside ASCII lowers to one of its four letters alone, so lowering
    the ASCII letters decides the comparison as [str.lower] does.) *)
Definition is_exit (line : string) : bool := String.eqb (Str.lower line) "exit".

(** A collaborator's failures are instances of [Exception]. *)
Definition fails_with_Exception {S A} (f : S -> result A * S) : Prop :=
  forall s e s', f s = (Raise e, s') -> is_Exception (exc_cls e) = true.

Definition reads_with_Exception {S A} (f : S -> result A) : Prop :=
  forall s e, f s = Raise e -> is_Exception (exc_cls e) = true.

(** The call returned rather than raised. *)
Definition returned {A} (r : result A) : bool :=
  match r with
  | Ok _ => true
  | Raise _ => false
  end.

End Main.

(** ** file_processer.py: what a run does to the store *)

Module Pipeline.

Import FileProcesser.

(** The word the progress lines use for a kind of file. *)
Definition label (which : extractor) : string :=
  match which with
  | PDF => "PDF"
  | TXT => "TXT"
  | WORD => "Word"
  end.

(** The listing of the data folder once the image directory, a single
    component, is there: the names of the entries, in the order of the
    file system. *)
Definition listing_with (order : list string -> list string) (name : string)
    (entries : list (string * entry_kind)) : list string :=
  order (match find_entry name entries with
         | Some _ => map fst entries
         | None => map fst entries ++ [name]
         end).

(** The warning of the branch for an empty listing. *)
Definition empty_listing_warning : event :=
  Logged WARNING "No files found in the specified data folder.".

(** A computation that only adds to the trace, and never that
    warning. *)
Definition adds_no_warning {V A} (m : M (world V) A) : Prop :=
  forall w, exists new,
    trace (snd (m w)) = trace w ++ new /\ ~ In empty_listing_warning new.

Section Pipeline.

Context {V Client Chunker : Type}.
Variable process_pdf :
  string -> string -> Client -> string -> Chunker -> V -> result unit * V.
Variable process_text : string -> Chunker -> V -> result unit * V.
Variable process_word_text : string -> Chunker -> V -> result unit * V.
Variables (data_folder output_folder : string) (openai_client : Client)
          (model_name : string) (text_chunker : Chunker).

(** The extractor of a kind, as [process_all_files] calls it on a file
    of the data folder. *)
Definition extractor_on (which : extractor) (filename : string)
  : V -> result unit * V :=
  let file_path := Str.path_join data_folder filename in
  match which with
  | PDF => process_pdf file_path output_folder openai_client model_name
                       text_chunker
  | TXT => process_text file_path text_chunker
  | WORD => process_word_text file_path text_chunker
  end.

(** The store once a file has had its turn: what its extractor left,
    whether it returned or raised; a file of no supported kind leaves
    the store alone. *)
Definition store_after (v : V) (filename : string) : V :=
  match classify filename with
  | Some which => snd (extractor_on which filename v)
  | None => v
  end.

End Pipeline.

End Pipeline.

(** ** Concrete collaborators for the retriever and the question loop *)

Module Desk.

Import VectorDatabase Retrieval Main.

(** A retriever over a list of documents: the first [k] of them, and a
    failure on the question ["boom"]. *)
Definition first_k (k : nat) (question : pyobj) (b : list Document)
  : result (list Document) * list Document :=
  match question with
  | ObjStr "boom" =>
      (Raise (Exc (ExceptionSubclass "ConnectionError") "store is down" None), b)
  | _ => (Ok (firstn k b), b)
  end.

Definition two_documents : list Document :=
  [text_document "a.txt" 1 "alpha"; text_document "a.txt" 1 "beta"].

Definition fresh_session : session (list Document) :=
  {| backend := two_documents; invoked := []; records := [] |}.

(** A disk that is the list of the paths that exist; a writer is the
    path it was opened on. *)
Definition exists_on (path : string) (disk : list string) : bool :=
  existsb (String.eqb path) disk.

Definition make_on (path : string) (disk : list string)
  : result unit * list string :=
  (Ok tt, disk ++ [path]).

Definition open_on (path : string) (m : mode) (disk : list string)
  : result string * list string :=
  match m with
  | ModeWrite => (Ok path, disk ++ [path])
  | ModeAppend =>
      if exists_on path disk then (Ok path, disk)
      else (Raise (Exc (ExceptionSubclass "FileNotFoundError") path None), disk)
  end.

Definition rows_on (writer : string) (disk : list string) : result Z := Ok 2.

Definition write_on (df : list qa_record) (writer : string) (header : bool)
    (startrow : Z) (disk : list string) : result unit * list string :=
  (Ok tt, disk).

Definition close_on (writer : string) (disk : list string)
  : result unit * list string :=
  (Ok tt, disk).

(** A model that answers every question but the empty one. *)
Definition answer_on (retriever : unit) (question : string) (max_images : Z)
    (client : unit) (disk : list string)
  : result (string * string) * list string :=
  if String.eqb question "" then
    (Raise (Exc ValueError "The question must be a non-empty string." None),
     disk)
  else (Ok ("a.txt, page 1", "About " +:+ question), disk).

Definition desk (disk : list string) : world (list string) :=
  {| ext := disk; events := [] |}.

Definition log_on (data : list qa_record) (disk : list string)
  : result unit * world (list string) :=
  log_to_excel exists_on make_on open_on rows_on write_on close_on
               data "out" "answers.xlsx" (desk disk).

Definition ask_on (stdin : list string) (disk : list string)
  : result (list string) * world (list string) :=
  ask_question exists_on make_on open_on rows_on write_on close_on answer_on
               tt tt 3 "out" "answers.xlsx" stdin (desk disk).

End Desk.

(** * Properties *)

(** ** Strings: suffixes under concatenation *)

Module StrFacts.

Lemma length_drop n s :
  String.length (Str.drop n s) = (String.length s - n)%nat.
Proof.
  revert s. induction n as [|n IH]; intros s.
  - simpl. lia.
  - destruct s as [|a s]; [reflexivity|]. simpl. apply IH.
Qed.

Lemma length_append a b :
  String.length (a +:+ b) = (String.length a + String.length b)%nat.
Proof. induction a as [|c a IH]; simpl; [reflexivity|now rewrite IH]. Qed.

Lemma drop_append a b n :
  Str.drop (String.length a + n) (a +:+ b) = Str.drop n b.
Proof. induction a as [|c a IH]; simpl; [reflexivity|exact IH]. Qed.

Lemma lower_append a b : Str.lower (a +:+ b) = Str.lower a +:+ Str.lower b.
Proof. induction a as [|c a IH]; simpl; [reflexivity|now rewrite IH]. Qed.

(** A suffix no longer than the last part is looked for in that part. *)
Lemma endswith_append a b suffix :
  (String.length suffix <= String.length b)%nat ->
  Str.endswith (a +:+ b) suffix = Str.endswith b suffix.
Proof.
  intros Hlen. unfold Str.endswith. rewrite length_append.
  replace (String.length a + String.length b - String.length suffix)%nat
    with (String.length a + (String.length b - String.length suffix))%nat
    by lia.
  rewrite drop_append.
  destruct (Nat.leb_spec (String.length suffix) (String.length b)); [|lia].
  destruct (Nat.leb_spec (String.length suffix)
              (String.length a + String.length b)); [reflexivity|lia].
Qed.

Lemma rfind_plus1_after_sep dir name :
  Str.rfind_plus1 "/" name = 0%nat ->
  Str.rfind_plus1 "/" (dir +:+ String "/" name) = S (String.length dir).
Proof.
  intros Hname. induction dir as [|a dir IH].
  - simpl. rewrite Hname. reflexivity.
  - simpl. rewrite IH. reflexivity.
Qed.

Lemma drop_after_sep dir name :
  Str.drop (S (String.length dir)) (dir +:+ String "/" name) = name.
Proof. induction dir as [|a dir IH]; [reflexivity|exact IH]. Qed.

(** The base name is the source name with its directory part removed. *)
Lemma basename_strips_directory dir name :
  Str.rfind_plus1 "/" name = 0%nat ->
  Str.basename (dir +:+ "/" +:+ name) = name.
Proof.
  intros Hname. unfold Str.basename.
  change ("/" +:+ name) with (String "/" name).
  rewrite rfind_plus1_after_sep by assumption. apply drop_after_sep.
Qed.

(** Nothing follows the last separator but the base name. *)
Lemma no_sep_after_rfind p :
  Str.rfind_plus1 "/" (Str.drop (Str.rfind_plus1 "/" p) p) = 0%nat.
Proof.
  induction p as [|a p IH]; [reflexivity|].
  simpl. destruct (Str.rfind_plus1 "/" p) as [|i] eqn:E.
  - destruct (Ascii.eqb a "/") eqn:Ea; simpl.
    + exact E.
    + rewrite E, Ea. reflexivity.
  - simpl. exact IH.
Qed.

Lemma rfind_plus1_bound c p i :
  Str.rfind_plus1 c p = S i -> (i < String.length p)%nat.
Proof.
  revert i. induction p as [|b p IH]; intros i E; [discriminate|].
  simpl in E. destruct (Str.rfind_plus1 c p) as [|j].
  - destruct (Ascii.eqb b c); [|discriminate].
    injection E as <-. simpl. lia.
  - injection E as <-. simpl. specialize (IH j eq_refl). lia.
Qed.

(** What precedes the base name is empty or ends in the separator. *)
Lemma split_at_rfind p :
  exists dir,
    p = dir +:+ Str.drop (Str.rfind_plus1 "/" p) p /\
    (dir = "" \/ exists d, dir = d +:+ "/").
Proof.
  induction p as [|a p (dir & Hp & Hdir)].
  - exists "". split; [reflexivity|now left].
  - simpl. destruct (Str.rfind_plus1 "/" p) as [|i] eqn:E.
    + destruct (Ascii.eqb a "/") eqn:Ea; simpl.
      * apply Ascii.eqb_eq in Ea. subst a.
        exists "/". split; [reflexivity|]. right. now exists "".
      * exists "". split; [reflexivity|now left].
    + exists (String a dir). split.
      * change (String a p = String a (dir +:+ Str.drop (S i) p)).
        f_equal. exact Hp.
      * right. destruct Hdir as [->|[d ->]].
        -- exfalso.
           assert (H : String.length p = String.length (Str.drop (S i) p))
             by (rewrite Hp at 1; reflexivity).
           rewrite length_drop in H.
           pose proof (rfind_plus1_bound _ _ _ E). lia.
        -- exists (String a d). reflexivity.
Qed.

(** A text in which the separator is not found does not hold it, and
    the other way round. *)
Lemma rfind_plus1_sep c a b : Str.rfind_plus1 c (a +:+ String c b) <> 0%nat.
Proof.
  induction a as [|x a IH]; simpl.
  - destruct (Str.rfind_plus1 c b); [rewrite Ascii.eqb_refl|]; discriminate.
  - destruct (Str.rfind_plus1 c (a +:+ String c b)); [contradiction|discriminate].
Qed.

Lemma rfind_plus1_none c s :
  Str.rfind_plus1 c s = 0%nat <-> (forall a b, s <> a +:+ String c b).
Proof.
  split.
  - intros H a b ->. now apply (rfind_plus1_sep c a b).
  - induction s as [|x s IH]; intros H; [reflexivity|].
    simpl. rewrite IH.
    + destruct (Ascii.eqb x c) eqn:E; [|reflexivity].
      apply Ascii.eqb_eq in E. subst x. now destruct (H "" s).
    + intros a b ->. now apply (H (String x a) b).
Qed.

(** The last component is what follows a directory part. *)
Lemma basename_of_split dir name :
  (dir = "" \/ exists d, dir = d +:+ "/") ->
  (forall a b, name <> a +:+ "/" +:+ b) ->
  Str.basename (dir +:+ name) = name.
Proof.
  intros Hdir Hname.
  assert (H0 : Str.rfind_plus1 "/" name = 0%nat)
    by (apply rfind_plus1_none; exact Hname).
  destruct Hdir as [->|[d ->]].
  - change ("" +:+ name) with name. unfold Str.basename. now rewrite H0.
  - replace ((d +:+ "/") +:+ name) with (d +:+ "/" +:+ name).
    + now apply basename_strips_directory.
    + clear. induction d as [|x d IH]; [reflexivity|].
      change (String x (d +:+ "/" +:+ name) = String x ((d +:+ "/") +:+ name)).
      f_equal. exact IH.
Qed.

(** A name splits into a directory part and a last component in one
    way only. *)
Lemma last_component_unique dir1 name1 dir2 name2 :
  dir1 +:+ name1 = dir2 +:+ name2 ->
  (dir1 = "" \/ exists d, dir1 = d +:+ "/") ->
  (dir2 = "" \/ exists d, dir2 = d +:+ "/") ->
  (forall a b, name1 <> a +:+ "/" +:+ b) ->
  (forall a b, name2 <> a +:+ "/" +:+ b) ->
  name1 = name2.
Proof.
  intros Heq Hd1 Hd2 Hn1 Hn2.
  rewrite <- (basename_of_split dir1 name1 Hd1 Hn1), Heq.
  now apply basename_of_split.
Qed.

(** What a strict UTF-8 stream writes. *)
Lemma is_ascii_append a b :
  Str.is_ascii (a +:+ b) = (Str.is_ascii a && Str.is_ascii b)%bool.
Proof.
  induction a as [|c a IH]; simpl; [reflexivity|].
  now rewrite IH, andb_assoc.
Qed.

Lemma utf8_of_ascii s : Str.is_ascii s = true -> Str.utf8 s = true.
Proof.
  induction s as [|c s IH]; [reflexivity|].
  simpl. intros H. apply andb_true_iff in H as [Hc Hs].
  unfold Str.utf8_lead. unfold Str.is_ascii_byte in Hc. rewrite Hc.
  now apply IH.
Qed.

Lemma utf8_append a b :
  Str.utf8 a = true -> Str.utf8 b = true -> Str.utf8 (a +:+ b) = true.
Proof.
  intros Ha Hb.
  remember (String.length a) as n eqn:Hn.
  assert (Hlen : (String.length a <= n)%nat) by lia. clear Hn.
  revert a Ha Hlen. induction n as [|n IH]; intros a Ha Hlen.
  - destruct a; [exact Hb|simpl in Hlen; lia].
  - destruct a as [|c a]; [exact Hb|].
    change (String c a +:+ b) with (String c (a +:+ b)).
    cbn [Str.utf8] in Ha |- *.
    destruct (Str.utf8_lead c) as [[[|[|[|[|k]]]] [lo hi]]|];
      try discriminate.
    + apply IH; [exact Ha|simpl in Hlen; lia].
    + destruct a as [|x1 a]; [discriminate|].
      change (String x1 a +:+ b) with (String x1 (a +:+ b)).
      apply andb_true_iff in Ha as [H1 H].
      rewrite H1. apply IH; [exact H|simpl in Hlen; lia].
    + destruct a as [|x1 [|x2 a]]; try discriminate.
      change (String x1 (String x2 a) +:+ b)
        with (String x1 (String x2 (a +:+ b))).
      apply andb_true_iff in Ha as [H1 H].
      rewrite H1. apply IH; [exact H|simpl in Hlen; lia].
    + destruct a as [|x1 [|x2 [|x3 a]]]; try discriminate.
      change (String x1 (String x2 (String x3 a)) +:+ b)
        with (String x1 (String x2 (String x3 (a +:+ b)))).
      apply andb_true_iff in Ha as [H1 H].
      rewrite H1. apply IH; [exact H|simpl in Hlen; lia].
Qed.

End StrFacts.

(** ** The indexer *)

Module VectorDatabaseFacts.

Import VectorDatabase.

Lemma fold_append_map {A} (mk : string -> A) (xs : list string) (acc : list A) :
  fold_left (fun documents text => documents ++ [mk text]) xs acc
  = acc ++ map mk xs.
Proof.
  revert acc. induction xs as [|x xs IH]; intros acc; simpl.
  - now rewrite app_nil_r.
  - rewrite IH, <- app_assoc. reflexivity.
Qed.

Lemma append_each_map {A} (mk : string -> A) (xs : list string) :
  append_each mk xs = map mk xs.
Proof. unfold append_each. now rewrite fold_append_map. Qed.

Section Facts.

Context {V : Type}.
Variable add_documents : list Document -> V -> result unit * V.

(** Past the two checks an insetter is the guarded call to the store. *)
Lemma text_db_insetter_valid xs pdf_name page_no (w : store V) :
  xs <> [] -> 1 <= page_no ->
  text_db_insetter add_documents xs pdf_name page_no w
  = try_except_Exception
      (call_add_documents add_documents (map (text_document pdf_name page_no) xs))
      wrap_store_failure w.
Proof.
  intros Hxs Hp. unfold text_db_insetter.
  rewrite bool_decide_eq_false_2 by assumption.
  destruct (page_no <? 1) eqn:E; [apply Z.ltb_lt in E; lia|].
  now rewrite append_each_map.
Qed.

Lemma image_db_insetter_valid xs image_path pdf_name page_no (w : store V) :
  xs <> [] -> 1 <= page_no ->
  image_db_insetter add_documents xs image_path pdf_name page_no w
  = try_except_Exception
      (call_add_documents add_documents
         (map (image_document image_path pdf_name page_no) xs))
      wrap_store_failure w.
Proof.
  intros Hxs Hp. unfold image_db_insetter.
  rewrite bool_decide_eq_false_2 by assumption.
  destruct (page_no <? 1) eqn:E; [apply Z.ltb_lt in E; lia|].
  now rewrite append_each_map.
Qed.

(** What the guarded call does, by the three ways the store can answer. *)
Lemma guarded_call_cases documents (w : store V) :
  let w' := {| db := snd (add_documents documents (db w));
               add_calls := add_calls w ++ [documents] |} in
  match fst (add_documents documents (db w)) with
  | Ok _ =>
      try_except_Exception (call_add_documents add_documents documents)
                           wrap_store_failure w = (Ok tt, w')
  | Raise e =>
      try_except_Exception (call_add_documents add_documents documents)
                           wrap_store_failure w
      = (Raise (if is_Exception (exc_cls e)
                then Exc Exception_ (store_failed_msg +:+ exc_str e) (Some e)
                else e), w')
  end.
Proof.
  unfold try_except_Exception, call_add_documents, wrap_store_failure, raise.
  destruct (add_documents documents (db w)) as [[[]|e] v']; simpl; [reflexivity|].
  destruct (is_Exception (exc_cls e)); reflexivity.
Qed.

Lemma guarded_call_records documents (w : store V) :
  add_calls (snd (try_except_Exception
                    (call_add_documents add_documents documents)
                    wrap_store_failure w))
  = add_calls w ++ [documents].
Proof.
  pose proof (guarded_call_cases documents w) as H. simpl in H.
  destruct (fst (add_documents documents (db w))); now rewrite H.
Qed.

Lemma guarded_call_never_ValueError documents (w w' : store V) e :
  try_except_Exception (call_add_documents add_documents documents)
                       wrap_store_failure w = (Raise e, w') ->
  exc_cls e <> ValueError.
Proof.
  pose proof (guarded_call_cases documents w) as H. simpl in H.
  destruct (fst (add_documents documents (db w))) as [u|e0];
    rewrite H; intros [= <- _].
  destruct (is_Exception (exc_cls e0)) eqn:E; simpl; [discriminate|].
  destruct (exc_cls e0); simpl in E; discriminate.
Qed.

(** On an empty list or a page number below 1 an insetter raises its
    [ValueError] at once. *)
Lemma text_db_insetter_invalid xs pdf_name page_no (w : store V) :
  xs = [] \/ page_no < 1 ->
  exists msg, text_db_insetter add_documents xs pdf_name page_no w
              = (Raise (Exc ValueError msg None), w).
Proof.
  intros Hbad. unfold text_db_insetter, raise.
  destruct (bool_decide (xs = [])) eqn:Hxs; [eexists; reflexivity|].
  apply bool_decide_eq_false in Hxs.
  destruct Hbad as [Hnil|Hpage]; [contradiction|].
  apply Z.ltb_lt in Hpage. rewrite Hpage. eexists; reflexivity.
Qed.

Lemma image_db_insetter_invalid xs image_path pdf_name page_no (w : store V) :
  xs = [] \/ page_no < 1 ->
  exists msg, image_db_insetter add_documents xs image_path pdf_name page_no w
              = (Raise (Exc ValueError msg None), w).
Proof.
  intros Hbad. unfold image_db_insetter, raise.
  destruct (bool_decide (xs = [])) eqn:Hxs; [eexists; reflexivity|].
  apply bool_decide_eq_false in Hxs.
  destruct Hbad as [Hnil|Hpage]; [contradiction|].
  apply Z.ltb_lt in Hpage. rewrite Hpage. eexists; reflexivity.
Qed.

Lemma invalid_or_valid (xs : list string) page_no :
  (xs = [] \/ page_no < 1) \/ (xs <> [] /\ 1 <= page_no).
Proof.
  destruct (decide (xs = [])) as [Hxs|Hxs]; [now left; left|].
  destruct (Z_lt_le_dec page_no 1); [left; now right|now right].
Qed.

(** C2.  Whatever the store, the source name and the page number, both
    insetters raise a [ValueError] when the content list is empty or the
    page number is below 1, and they do so before anything else: the
    store and the record of its calls are as they were.  With a list that
    is not empty and a page number of at least 1, neither raises a
    [ValueError]. *)
Theorem insetters_validate_first xs image_path pdf_name page_no (w : store V) :
  ((xs = [] \/ page_no < 1) ->
   (exists msg, text_db_insetter add_documents xs pdf_name page_no w
                = (Raise (Exc ValueError msg None), w)) /\
   (exists msg, image_db_insetter add_documents xs image_path pdf_name page_no w
                = (Raise (Exc ValueError msg None), w)))
  /\
  ((xs <> [] /\ 1 <= page_no) ->
   (forall e w', text_db_insetter add_documents xs pdf_name page_no w
                 = (Raise e, w') -> exc_cls e <> ValueError) /\
   (forall e w', image_db_insetter add_documents xs image_path pdf_name page_no w
                 = (Raise e, w') -> exc_cls e <> ValueError)).
Proof.
  split.
  - intros Hbad. split.
    + now apply text_db_insetter_invalid.
    + now apply image_db_insetter_invalid.
  - intros [Hxs Hpage]. split; intros e w'.
    + rewrite text_db_insetter_valid by assumption.
      apply guarded_call_never_ValueError.
    + rewrite image_db_insetter_valid by assumption.
      apply guarded_call_never_ValueError.
Qed.

(** C10.  A call that ends in the validation error has not reached the
    store: [add_documents] was not invoked and the store is unchanged. *)
Theorem validation_failure_before_store xs image_path pdf_name page_no
    (w w' : store V) e :
  text_db_insetter add_documents xs pdf_name page_no w = (Raise e, w') \/
  image_db_insetter add_documents xs image_path pdf_name page_no w
  = (Raise e, w') ->
  exc_cls e = ValueError ->
  add_calls w' = add_calls w /\ db w' = db w.
Proof.
  intros Hrun Hcls.
  destruct (invalid_or_valid xs page_no) as [Hbad|[Hxs Hpage]].
  - destruct (text_db_insetter_invalid xs pdf_name page_no w Hbad) as [m1 H1].
    destruct (image_db_insetter_invalid xs image_path pdf_name page_no w Hbad)
      as [m2 H2].
    rewrite H1, H2 in Hrun. destruct Hrun as [[= _ <-]|[= _ <-]]; auto.
  - exfalso. revert Hcls.
    rewrite text_db_insetter_valid, image_db_insetter_valid in Hrun
      by assumption.
    destruct Hrun as [Hrun|Hrun];
      eapply guarded_call_never_ValueError; eassumption.
Qed.

Lemma text_document_provenance pdf_name page_no x :
  provenance (text_document pdf_name page_no x)
             (Str.basename pdf_name) page_no "Text" None.
Proof. repeat split. Qed.

Lemma image_document_provenance image_path pdf_name page_no x :
  provenance (image_document image_path pdf_name page_no x)
             (Str.basename pdf_name) page_no "Image" (Some image_path).
Proof. repeat split. Qed.

(** C3.  On a list that is not empty and a page number of at least 1,
    each insetter hands the store one document per input string, in the
    order of the input, with that string as content.  Source is the
    last component of the source name: the source name is a directory
    part, empty or ending in the separator, followed by the Source, and
    the Source holds no separator.  PageNo is the page number, Type is
    Text for [text_db_insetter] and Image for [image_db_insetter], and
    only the latter attaches ImagePath, the image path it was given. *)
Theorem insetters_build_documents xs image_path pdf_name page_no (w : store V) :
  xs <> [] -> 1 <= page_no ->
  exists dir source docs_t docs_i,
    pdf_name = dir +:+ source /\
    (dir = "" \/ exists d, dir = d +:+ "/") /\
    (forall a b, source <> a +:+ "/" +:+ b) /\
    add_calls (snd (text_db_insetter add_documents xs pdf_name page_no w))
    = add_calls w ++ [docs_t] /\
    add_calls (snd (image_db_insetter add_documents xs image_path pdf_name
                                      page_no w))
    = add_calls w ++ [docs_i] /\
    length docs_t = length xs /\ length docs_i = length xs /\
    forall (i : nat) x, xs !! i = Some x ->
      exists dt di,
        docs_t !! i = Some dt /\ docs_i !! i = Some di /\
        page_content dt = x /\ page_content di = x /\
        provenance dt source page_no "Text" None /\
        provenance di source page_no "Image" (Some image_path).
Proof.
  intros Hxs Hpage.
  destruct (StrFacts.split_at_rfind pdf_name) as (dir & Hsplit & Hdir).
  exists dir, (Str.drop (Str.rfind_plus1 "/" pdf_name) pdf_name),
         (map (text_document pdf_name page_no) xs),
         (map (image_document image_path pdf_name page_no) xs).
  split; [exact Hsplit|]. split; [exact Hdir|].
  split; [apply StrFacts.rfind_plus1_none, StrFacts.no_sep_after_rfind|].
  rewrite text_db_insetter_valid, image_db_insetter_valid by assumption.
  rewrite !guarded_call_records, !length_map.
  repeat split.
  intros i x Hi.
  exists (text_document pdf_name page_no x),
         (image_document image_path pdf_name page_no x).
  change (map ?f xs) with (f <$> xs). rewrite !list_lookup_fmap, Hi.
  repeat split.
Qed.

Lemma text_document_invariant pdf_name page_no x :
  1 <= page_no -> metadata_invariant (text_document pdf_name page_no x).
Proof.
  intros Hp. split; [|split].
  - exists page_no. split; [reflexivity|assumption].
  - left. reflexivity.
  - split; [intros [v Hv]|intros H]; discriminate.
Qed.

Lemma image_document_invariant image_path pdf_name page_no x :
  1 <= page_no ->
  metadata_invariant (image_document image_path pdf_name page_no x).
Proof.
  intros Hp. split; [|split].
  - exists page_no. split; [reflexivity|assumption].
  - right. reflexivity.
  - split; [reflexivity|intros _; eexists; reflexivity].
Qed.

(** C4, as the code has it.  Every document either insetter hands to the
    store has PageNo at least 1, Type Text or Image, and ImagePath
    exactly when Type is Image; its content is one of the input strings,
    so it is not empty when no input string is.  (An empty string inside
    a list that is not empty is not rejected.) *)
Theorem stored_documents_invariant xs image_path pdf_name page_no (w : store V) :
  exists new_t new_i,
    add_calls (snd (text_db_insetter add_documents xs pdf_name page_no w))
    = add_calls w ++ new_t /\
    add_calls (snd (image_db_insetter add_documents xs image_path pdf_name
                                      page_no w))
    = add_calls w ++ new_i /\
    Forall (Forall (fun d => metadata_invariant d /\ In (page_content d) xs))
           (new_t ++ new_i).
Proof.
  destruct (invalid_or_valid xs page_no) as [Hbad|[Hxs Hpage]].
  - destruct (text_db_insetter_invalid xs pdf_name page_no w Hbad) as [m1 H1].
    destruct (image_db_insetter_invalid xs image_path pdf_name page_no w Hbad)
      as [m2 H2].
    exists [], []. rewrite H1, H2, app_nil_r. repeat split. constructor.
  - exists [map (text_document pdf_name page_no) xs],
           [map (image_document image_path pdf_name page_no) xs].
    rewrite text_db_insetter_valid, image_db_insetter_valid by assumption.
    rewrite !guarded_call_records. repeat split.
    repeat constructor; apply List.Forall_forall; intros d Hd;
      apply in_map_iff in Hd; destruct Hd as [x [<- Hx]]; (split; [|exact Hx]).
    + now apply text_document_invariant.
    + now apply image_document_invariant.
Qed.

(** C8, as the code has it.  When the store's [add_documents] raises an
    instance of [Exception], each insetter raises a new [Exception] whose
    message is the fixed sentence followed by the text of the cause, with
    the cause kept as its context.  The sentence is the same in both
    insetters. *)
Theorem store_failure_is_wrapped xs image_path pdf_name page_no (w : store V) e :
  xs <> [] -> 1 <= page_no ->
  is_Exception (exc_cls e) = true ->
  exists wrapped,
    exc_cls wrapped = Exception_ /\
    exc_str wrapped
    = "An error occurred while adding documents to the vector database: "
      +:+ exc_str e /\
    exc_context wrapped = Some e /\
    (fst (add_documents (map (text_document pdf_name page_no) xs) (db w))
     = Raise e ->
     fst (text_db_insetter add_documents xs pdf_name page_no w)
     = Raise wrapped) /\
    (fst (add_documents (map (image_document image_path pdf_name page_no) xs)
                        (db w))
     = Raise e ->
     fst (image_db_insetter add_documents xs image_path pdf_name page_no w)
     = Raise wrapped).
Proof.
  intros Hxs Hpage Hexc.
  exists (Exc Exception_ (store_failed_msg +:+ exc_str e) (Some e)).
  rewrite text_db_insetter_valid, image_db_insetter_valid by assumption.
  pose proof (guarded_call_cases (map (text_document pdf_name page_no) xs) w)
    as Ht.
  pose proof (guarded_call_cases
                (map (image_document image_path pdf_name page_no) xs) w) as Hi.
  simpl in Ht, Hi.
  repeat split; intros Hfail; rewrite Hfail, Hexc in *;
    [rewrite Ht|rewrite Hi]; reflexivity.
Qed.

End Facts.

Import Demo.

Lemma insetters_validate_first_witness :
  (exists msg, text_db_insetter keep_all [] "a.txt" 0 empty_store
               = (Raise (Exc ValueError msg None), empty_store)) /\
  (forall e w', text_db_insetter keep_all ["chunk"] "a.txt" 1 empty_store
                = (Raise e, w') -> exc_cls e <> ValueError).
Proof.
  split.
  - apply (proj1 (insetters_validate_first keep_all [] "" "a.txt" 0 empty_store)).
    left. reflexivity.
  - apply (proj2 (insetters_validate_first keep_all ["chunk"] "" "a.txt" 1
                    empty_store)).
    split; [discriminate|lia].
Defined.

Lemma validation_failure_before_store_witness :
  fst (image_db_insetter keep_all ["summary"] "img/a_0_0.png" "a.pdf" 0
                         empty_store)
  = Raise (Exc ValueError "Page number must be a positive integer." None) /\
  add_calls (snd (image_db_insetter keep_all ["summary"] "img/a_0_0.png"
                                    "a.pdf" 0 empty_store))
  = add_calls empty_store /\
  db (snd (image_db_insetter keep_all ["summary"] "img/a_0_0.png" "a.pdf" 0
                             empty_store))
  = db empty_store.
Proof.
  split; [reflexivity|].
  apply (validation_failure_before_store keep_all ["summary"] "img/a_0_0.png"
           "a.pdf" 0 empty_store _
           (Exc ValueError "Page number must be a positive integer." None)).
  - right. reflexivity.
  - reflexivity.
Defined.

Lemma insetters_build_documents_witness :
  exists docs_t docs_i,
    add_calls (snd (text_db_insetter keep_all ["one"; "two"] "in/a.pdf" 3
                                     empty_store))
    = add_calls empty_store ++ [docs_t] /\
    add_calls (snd (image_db_insetter keep_all ["one"; "two"] "img/a_3_0.png"
                                      "in/a.pdf" 3 empty_store))
    = add_calls empty_store ++ [docs_i] /\
    length docs_t = 2%nat /\ length docs_i = 2%nat /\
    forall (i : nat) x, ["one"; "two"] !! i = Some x ->
      exists dt di,
        docs_t !! i = Some dt /\ docs_i !! i = Some di /\
        page_content dt = x /\ page_content di = x /\
        provenance dt "a.pdf" 3 "Text" None /\
        provenance di "a.pdf" 3 "Image" (Some "img/a_3_0.png").
Proof.
  destruct (insetters_build_documents keep_all ["one"; "two"] "img/a_3_0.png"
              "in/a.pdf" 3 empty_store)
    as (dir & source & docs_t & docs_i & Hsplit & Hdir & Hsource & Hdocs);
    [discriminate|lia|].
  assert (Hname : source = "a.pdf").
  { apply (StrFacts.last_component_unique dir source "in/" "a.pdf").
    - now rewrite <- Hsplit.
    - exact Hdir.
    - right. now exists "in".
    - exact Hsource.
    - apply StrFacts.rfind_plus1_none. reflexivity. }
  rewrite Hname in Hdocs. exists docs_t, docs_i. exact Hdocs.
Defined.

(** C4, as stated, fails: a list holding the empty string passes both
    checks, and a document with empty content reaches the store. *)
Lemma empty_content_reaches_store :
  ~ Forall (Forall data_model_invariant)
      (add_calls (snd (text_db_insetter keep_all [""] "notes.txt" 1
                                        empty_store))).
Proof.
  intros H. apply Forall_inv in H. apply Forall_inv in H.
  destruct H as [_ H]. apply H. reflexivity.
Qed.

(** C8, as stated, fails: on the same failure of the store the two
    insetters raise the same error, which therefore cannot tell text
    insertion from image insertion. *)
Lemma wrapped_error_does_not_identify_operation :
  ~ identifies_operation
      (fst (text_db_insetter (reject_with connection_lost) ["summary"]
                             "report.pdf" 2 empty_store))
      (fst (image_db_insetter (reject_with connection_lost) ["summary"]
                              "img/report_2_0.png" "report.pdf" 2 empty_store)).
Proof.
  intros [which [Ht Hi]].
  change (fst (image_db_insetter (reject_with connection_lost) ["summary"]
                 "img/report_2_0.png" "report.pdf" 2 empty_store))
    with (fst (text_db_insetter (reject_with connection_lost) ["summary"]
                 "report.pdf" 2 empty_store)) in Hi.
  congruence.
Qed.

Lemma store_failure_is_wrapped_witness :
  exists wrapped,
    exc_cls wrapped = Exception_ /\
    exc_str wrapped
    = "An error occurred while adding documents to the vector database: "
      +:+ exc_str connection_lost /\
    exc_context wrapped = Some connection_lost /\
    fst (text_db_insetter (reject_with connection_lost) ["summary"]
                          "report.pdf" 2 empty_store) = Raise wrapped /\
    fst (image_db_insetter (reject_with connection_lost) ["summary"]
                           "img/report_2_0.png" "report.pdf" 2 empty_store)
    = Raise wrapped.
Proof.
  destruct (store_failure_is_wrapped (reject_with connection_lost) ["summary"]
              "img/report_2_0.png" "report.pdf" 2 empty_store connection_lost)
    as (wrapped & Hcls & Hstr & Hctx & Ht & Hi).
  - discriminate.
  - lia.
  - reflexivity.
  - exists wrapped. repeat split; try assumption.
    + apply Ht. reflexivity.
    + apply Hi. reflexivity.
Defined.

(** A store failure that is not an instance of [Exception] is not
    wrapped: it leaves the insetter as it is. *)
Example interrupt_passes_through :
  fst (text_db_insetter (reject_with interrupted) ["chunk"] "a.txt" 1
                        empty_store)
  = Raise interrupted.
Proof. reflexivity. Qed.

End VectorDatabaseFacts.

Module FileProcesserFacts.

Import FileProcesser Pipeline.

Section Facts.

Context {V Client Chunker : Type}.
Variable config_settings : gmap string cfgval.
Variable stdout_encodes : string -> bool.
Variable listing_order : list string -> list string.
Variable os_makedirs_beyond : string -> node -> result unit * node.
Variable process_pdf :
  string -> string -> Client -> string -> Chunker -> V -> result unit * V.
Variable process_text : string -> Chunker -> V -> result unit * V.
Variable process_word_text : string -> Chunker -> V -> result unit * V.
Variables (data_folder : string) (openai_client : Client)
          (model_name : string) (text_chunker : Chunker).

Abbreviation print := (print (V:=V) stdout_encodes).
Abbreviation report_failure := (report_failure (V:=V) stdout_encodes).
Abbreviation os_makedirs_exist_ok :=
  (os_makedirs_exist_ok (V:=V) os_makedirs_beyond).
Abbreviation os_listdir := (os_listdir (V:=V) listing_order).
Abbreviation dispatch :=
  (dispatch config_settings stdout_encodes process_pdf process_text
            process_word_text data_folder openai_client model_name
            text_chunker).
Abbreviation process_file :=
  (process_file config_settings stdout_encodes process_pdf process_text
                process_word_text data_folder openai_client model_name
                text_chunker).
Abbreviation process_all_files :=
  (process_all_files config_settings stdout_encodes listing_order
                     os_makedirs_beyond process_pdf process_text
                     process_word_text data_folder openai_client model_name
                     text_chunker).
Abbreviation image_directory :=
  (extracted_images_foldername config_settings).
Abbreviation listing_with := (listing_with listing_order).

Lemma with_events_nil (w : world V) : with_events w [] = w.
Proof. destruct w. unfold with_events. simpl. now rewrite app_nil_r. Qed.

Lemma with_events_app (w : world V) evs evs' :
  with_events (with_events w evs) evs' = with_events w (evs ++ evs').
Proof. unfold with_events. simpl. now rewrite app_assoc. Qed.

Lemma emit_with_events ev (w : world V) : emit ev w = (Ok tt, with_events w [ev]).
Proof. reflexivity. Qed.

(** A line is written when standard output can encode it, and refused
    otherwise. *)
Lemma print_outcome msg (w : world V) :
  print msg w
  = if stdout_encodes msg then (Ok tt, with_events w [Printed msg])
    else (Raise encode_error, w).
Proof. unfold FileProcesser.print. now destruct (stdout_encodes msg). Qed.

(** An extractor branch: two lines, the call, two lines. *)
Lemma extractor_branch which file_path before after
      (f : V -> result unit * V) (w : world V) :
  (logger_info before ;; print before ;; call which file_path f ;;
   logger_info after ;; print after) w
  = if stdout_encodes before then
      match f (vector_db w) with
      | (Ok _, v') =>
          if stdout_encodes after then
            (Ok tt,
             {| fs := fs w; vector_db := v';
                trace := trace w ++ [Logged INFO before; Printed before;
                                     Called which file_path;
                                     Logged INFO after; Printed after] |})
          else
            (Raise encode_error,
             {| fs := fs w; vector_db := v';
                trace := trace w ++ [Logged INFO before; Printed before;
                                     Called which file_path;
                                     Logged INFO after] |})
      | (Raise e, v') =>
          (Raise e,
           {| fs := fs w; vector_db := v';
              trace := trace w ++ [Logged INFO before; Printed before;
                                   Called which file_path] |})
      end
    else (Raise encode_error, with_events w [Logged INFO before]).
Proof.
  unfold bind, logger_info, FileProcesser.print, emit, call, raise,
    with_events.
  simpl. destruct (stdout_encodes before); [|reflexivity]. simpl.
  destruct (f (vector_db w)) as [[[]|e] v']; simpl;
    [destruct (stdout_encodes after); simpl|];
    rewrite <- !app_assoc; reflexivity.
Qed.

(** The last branch: the look-up in the configuration, then the
    comparison. *)
Lemma unsupported_branch filename (w : world V) :
  (v <- config_settings_getitem config_settings "image_directory_name" ;;
   if ne_str v filename then
     logger_warning ("Unsupported file type: " +:+ filename) ;;
     print ("Warning: Unsupported file type: " +:+ filename)
   else ret tt) w
  = match config_settings !! "image_directory_name" with
    | None => (Raise (Exc KeyError "'image_directory_name'" None), w)
    | Some v =>
        if ne_str v filename then
          if stdout_encodes ("Warning: Unsupported file type: " +:+ filename)
          then
            (Ok tt, with_events w
                      [Logged WARNING ("Unsupported file type: " +:+ filename);
                       Printed ("Warning: Unsupported file type: "
                                +:+ filename)])
          else
            (Raise encode_error,
             with_events w
               [Logged WARNING ("Unsupported file type: " +:+ filename)])
        else (Ok tt, w)
    end.
Proof.
  unfold bind, config_settings_getitem.
  destruct (config_settings !! "image_directory_name") as [v|]; [|reflexivity].
  unfold ret at 1. destruct (ne_str v filename); [|reflexivity].
  unfold logger_warning, FileProcesser.print, emit, raise, with_events.
  cbn [fst snd fs vector_db trace].
  destruct (stdout_encodes ("Warning: Unsupported file type: " +:+ filename));
    cbn [fs vector_db trace]; rewrite <- ?app_assoc; reflexivity.
Qed.

(** The [except] block: the error is logged, then printed; when the
    line cannot be written the block itself raises, with the error it
    was handling as context. *)
Lemma report_failure_outcome filename e (w : world V) :
  report_failure filename e w
  = if stdout_encodes ("Error processing file " +:+ filename +:+ ": "
                       +:+ exc_str e)
    then
      (Ok tt,
       with_events w
         [Logged ERROR ("Error processing file " +:+ filename +:+ ": "
                        +:+ exc_str e);
          Printed ("Error processing file " +:+ filename +:+ ": "
                   +:+ exc_str e)])
    else
      (Raise (Exc (exc_cls encode_error) (exc_str encode_error) (Some e)),
       with_events w
         [Logged ERROR ("Error processing file " +:+ filename +:+ ": "
                        +:+ exc_str e)]).
Proof.
  unfold FileProcesser.report_failure, while_handling, bind, logger_error,
    FileProcesser.print, emit, raise, with_events.
  cbn [fst snd fs vector_db trace].
  destruct (stdout_encodes ("Error processing file " +:+ filename +:+ ": "
                            +:+ exc_str e));
    cbn [fs vector_db trace]; rewrite <- ?app_assoc; reflexivity.
Qed.


(** An entry that is found is listed. *)
Lemma find_entry_listed name entries k :
  find_entry name entries = Some k -> In name (map fst entries).
Proof.
  induction entries as [|[n k'] entries IH]; [discriminate|].
  simpl. destruct (String.eqb n name) eqn:E.
  - intros _. left. now apply String.eqb_eq.
  - intros H. right. now apply IH.
Qed.

(** Making the image directory, a single component, in a data folder
    that exists: it fails only on a file of that name, and leaves the
    directory among the entries. *)
Lemma makedirs_in_folder name entries (w : world V) :
  Str.single_component name = true ->
  fs w = Folder entries ->
  find_entry name entries <> Some RegularFile ->
  exists w1,
    os_makedirs_exist_ok name w = (Ok tt, w1) /\
    vector_db w1 = vector_db w /\ trace w1 = trace w /\
    os_listdir w1 = (Ok (listing_with name entries), w1) /\
    exists entries1,
      fs w1 = Folder entries1 /\ In name (map fst entries1) /\
      listing_with name entries = listing_order (map fst entries1).
Proof.
  intros Hname Hfs Hfile.
  unfold FileProcesser.os_makedirs_exist_ok, FileProcesser.os_listdir,
    Pipeline.listing_with.
  rewrite Hname, Hfs.
  destruct (find_entry name entries) as [[|]|] eqn:Hfind; [contradiction| |].
  - exists w. rewrite Hfs. repeat split. exists entries.
    repeat split. eapply find_entry_listed, Hfind.
  - eexists. split; [reflexivity|]. cbn [fs vector_db trace].
    rewrite map_app. repeat split.
    eexists. split; [reflexivity|]. rewrite map_app.
    split; [apply in_or_app; right; now left|reflexivity].
Qed.

(** Once the image directory has been made, the listing of the data
    folder holds at least that directory: the branch for an empty
    listing is not taken. *)
Lemma listing_after_makedirs name entries (w w' : world V) :
  Str.single_component name = true ->
  lists_what_is_there listing_order ->
  fs w = Folder entries ->
  os_makedirs_exist_ok name w = (Ok tt, w') ->
  exists files, os_listdir w' = (Ok files, w') /\ In name files.
Proof.
  intros Hname Horder Hfs Hmk.
  destruct (find_entry name entries) as [[|]|] eqn:Hfind.
  - exfalso. revert Hmk. unfold FileProcesser.os_makedirs_exist_ok.
    rewrite Hname, Hfs, Hfind. discriminate.
  - destruct (makedirs_in_folder name entries w Hname Hfs)
      as (w1 & Hmk1 & _ & _ & Hls & entries1 & _ & Hin & Heq);
      [rewrite Hfind; discriminate|].
    rewrite Hmk in Hmk1. injection Hmk1 as <-.
    eexists. split; [exact Hls|]. rewrite Heq.
    eapply Permutation_in; [symmetry; apply Horder|exact Hin].
  - destruct (makedirs_in_folder name entries w Hname Hfs)
      as (w1 & Hmk1 & _ & _ & Hls & entries1 & _ & Hin & Heq);
      [rewrite Hfind; discriminate|].
    rewrite Hmk in Hmk1. injection Hmk1 as <-.
    eexists. split; [exact Hls|]. rewrite Heq.
    eapply Permutation_in; [symmetry; apply Horder|exact Hin].
Qed.

(** A run over a data folder that exists: the image directory is made,
    the folder is listed, and the loop is gone through. *)
Lemma run_enters_the_loop entries (w : world V) :
  Str.single_component image_directory = true ->
  lists_what_is_there listing_order ->
  fs w = Folder entries ->
  find_entry image_directory entries <> Some RegularFile ->
  exists w1,
    os_makedirs_exist_ok image_directory w = (Ok tt, w1) /\
    vector_db w1 = vector_db w /\ trace w1 = trace w /\
    os_listdir w1 = (Ok (listing_with image_directory entries), w1) /\
    In image_directory (listing_with image_directory entries) /\
    process_all_files w
    = (for_each (listing_with image_directory entries)
         (process_file (Str.path_join data_folder image_directory)) ;;
       logger_info "All files have been processed." ;;
       print "All files have been processed.") w1.
Proof.
  intros Hname Horder Hfs Hfile.
  destruct (makedirs_in_folder image_directory entries w Hname Hfs Hfile)
    as (w1 & Hmk & Hv & Htr & Hls & entries1 & _ & Hin & Heq).
  assert (Hlisted : In image_directory (listing_with image_directory entries)).
  { rewrite Heq. eapply Permutation_in; [symmetry; apply Horder|exact Hin]. }
  exists w1. repeat split; try assumption.
  unfold FileProcesser.process_all_files.
  unfold bind at 1. unfold os_path_exists. rewrite Hfs.
  cbn [negb fst snd]. cbv beta iota zeta.
  unfold bind at 1. rewrite Hmk.
  unfold bind at 1. rewrite Hls.
  rewrite bool_decide_eq_false_2; [reflexivity|].
  intros Hnil. rewrite Hnil in Hlisted. contradiction.
Qed.

(** *** When every line can be written *)

Hypothesis pdf_failures :
  forall a b c d e, raises_only_Exception (process_pdf a b c d e).
Hypothesis text_failures : forall a b, raises_only_Exception (process_text a b).
Hypothesis word_failures :
  forall a b, raises_only_Exception (process_word_text a b).

Hypothesis stdout_sound : sound_stdout stdout_encodes.
Hypothesis pdf_failures_shown :
  forall a b c d e, failures_can_be_shown stdout_encodes (process_pdf a b c d e).
Hypothesis text_failures_shown :
  forall a b, failures_can_be_shown stdout_encodes (process_text a b).
Hypothesis word_failures_shown :
  forall a b, failures_can_be_shown stdout_encodes (process_word_text a b).

(** A line made of the program's own words and of texts that can be
    written can be written. *)
Ltac writable :=
  repeat first
    [ assumption
    | apply (proj1 stdout_sound); reflexivity
    | apply (proj2 stdout_sound) ].

(** What [dispatch] leaves: the file system as it was, the call that was
    due on the trace, and only instances of [Exception] raised, with a
    text that can be written. *)
Lemma dispatch_outcome output_folder filename (w : world V) :
  stdout_encodes filename = true ->
  exists r w',
    dispatch output_folder filename w = (r, w') /\
    fs w' = fs w /\
    List.filter is_call (trace w')
    = List.filter is_call (trace w) ++ expected_calls data_folder filename /\
    (forall e, r = Raise e ->
       is_Exception (exc_cls e) = true /\ stdout_encodes (exc_str e) = true).
Proof.
  intros Hfile.
  unfold FileProcesser.dispatch, expected_calls, classify.
  destruct (Str.endswith (Str.lower filename) ".pdf");
    [|destruct (Str.endswith (Str.lower filename) ".txt");
      [|destruct (Str.endswith (Str.lower filename) ".docx")]].
  1-3: rewrite extractor_branch;
    match goal with
    | |- context [if stdout_encodes ?before then _ else _] =>
        replace (stdout_encodes before) with true by (symmetry; writable)
    end;
    match goal with
    | |- context [match ?f (vector_db ?w0) with _ => _ end] =>
        destruct (f (vector_db w0)) as [[[]|e] v'] eqn:E
    end;
    try match goal with
    | |- context [if stdout_encodes ?after then _ else _] =>
        replace (stdout_encodes after) with true by (symmetry; writable)
    end;
    eexists _, _; (split; [reflexivity|]); simpl;
    rewrite List.filter_app; simpl;
    (split; [reflexivity|]); (split; [reflexivity|]);
    intros ? [= <-]; split;
    first [ eapply pdf_failures; eassumption
          | eapply text_failures; eassumption
          | eapply word_failures; eassumption
          | eapply pdf_failures_shown; eassumption
          | eapply text_failures_shown; eassumption
          | eapply word_failures_shown; eassumption ].
  cbv beta iota zeta. rewrite unsupported_branch.
  destruct (config_settings !! "image_directory_name") as [v|].
  - destruct (ne_str v filename).
    + replace (stdout_encodes ("Warning: Unsupported file type: "
                               +:+ filename))
        with true by (symmetry; writable).
      eexists _, _. split; [reflexivity|]. simpl.
      rewrite List.filter_app. simpl. repeat split; discriminate.
    + eexists _, _. split; [reflexivity|]. rewrite app_nil_r.
      repeat split; discriminate.
  - eexists _, _. split; [reflexivity|]. rewrite app_nil_r.
    repeat split; injection H as <-; [reflexivity|].
    apply (proj1 stdout_sound). reflexivity.
Qed.

(** The body of the loop returns; an error under [try:] has been logged
    and printed with the file's name and the text of the cause. *)
Lemma process_file_outcome output_folder filename (w : world V) :
  stdout_encodes filename = true ->
  exists w',
    process_file output_folder filename w = (Ok tt, w') /\
    fs w' = fs w /\
    List.filter is_call (trace w')
    = List.filter is_call (trace w) ++ expected_calls data_folder filename /\
    (forall e w1, dispatch output_folder filename w = (Raise e, w1) ->
       w' = with_events w1
              [Logged ERROR ("Error processing file " +:+ filename +:+ ": "
                             +:+ exc_str e);
               Printed ("Error processing file " +:+ filename +:+ ": "
                        +:+ exc_str e)]).
Proof.
  intros Hfile.
  destruct (dispatch_outcome output_folder filename w Hfile)
    as (r & w1 & Hrun & Hfs & Hcalls & Hexc).
  unfold FileProcesser.process_file, try_except_Exception. rewrite Hrun.
  destruct r as [[]|e].
  - exists w1. repeat split; try assumption. intros e w2 [=].
  - destruct (Hexc e eq_refl) as [Hcls Htext]. rewrite Hcls.
    rewrite report_failure_outcome.
    replace (stdout_encodes ("Error processing file " +:+ filename +:+ ": "
                             +:+ exc_str e))
      with true by (symmetry; writable).
    eexists. split; [reflexivity|]. split; [exact Hfs|]. split.
    + simpl. rewrite List.filter_app, Hcalls. simpl. now rewrite app_nil_r.
    + intros e' w2 [= <- <-]. reflexivity.
Qed.

(** The loop returns, with every file of the listing dispatched, in
    order. *)
Lemma for_each_outcome output_folder files (w : world V) :
  Forall (fun f => stdout_encodes f = true) files ->
  exists w',
    for_each files (process_file output_folder) w = (Ok tt, w') /\
    fs w' = fs w /\
    List.filter is_call (trace w')
    = List.filter is_call (trace w)
      ++ flat_map (expected_calls data_folder) files.
Proof.
  intros Hfiles. revert w.
  induction Hfiles as [|f files Hf _ IH]; intros w.
  - exists w. simpl. rewrite app_nil_r. repeat split.
  - destruct (process_file_outcome output_folder f w Hf)
      as (w1 & Hrun & Hfs & Hcalls & _).
    destruct (IH w1) as (w2 & Hrest & Hfs2 & Hcalls2).
    exists w2. simpl. unfold bind at 1. rewrite Hrun, Hrest.
    repeat split; [congruence|].
    rewrite Hcalls2, Hcalls, <- app_assoc. reflexivity.
Qed.

(** A run over a data folder in which the image directory, a single
    component, can be made, on a standard output that can write the
    names listed: it returns, and every entry of the folder is
    dispatched. *)
Lemma process_all_files_outcome entries (w : world V) :
  Str.single_component image_directory = true ->
  lists_what_is_there listing_order ->
  fs w = Folder entries ->
  find_entry image_directory entries <> Some RegularFile ->
  Forall (fun f => stdout_encodes f = true)
         (listing_with image_directory entries) ->
  exists w',
    process_all_files w = (Ok tt, w') /\
    incl (map fst entries) (listing_with image_directory entries) /\
    List.filter is_call (trace w')
    = List.filter is_call (trace w)
      ++ flat_map (expected_calls data_folder)
                  (listing_with image_directory entries).
Proof.
  intros Hname Horder Hfs Hfile Hfiles.
  destruct (run_enters_the_loop entries w Hname Horder Hfs Hfile)
    as (w1 & _ & _ & Htr & _ & _ & ->).
  destruct (for_each_outcome (Str.path_join data_folder image_directory)
              (listing_with image_directory entries) w1 Hfiles)
    as (w2 & Hrun & _ & Hcalls).
  unfold bind at 1. rewrite Hrun.
  unfold bind, logger_info. rewrite emit_with_events. cbn [fst snd].
  rewrite print_outcome.
  replace (stdout_encodes "All files have been processed.")
    with true by (symmetry; writable).
  eexists. split; [reflexivity|]. split.
  - intros x Hx. unfold Pipeline.listing_with.
    eapply Permutation_in; [symmetry; apply Horder|].
    destruct (find_entry image_directory entries); [exact Hx|].
    apply in_or_app. now left.
  - cbn [with_events trace]. rewrite <- app_assoc, List.filter_app, Hcalls, Htr.
    simpl. now rewrite app_nil_r.
Qed.

(** With a name configured, a file of no supported kind draws the
    warning unless it bears that name. *)
Lemma unsupported_with_configured_name output_folder filename v (w : world V) :
  config_settings !! "image_directory_name" = Some v ->
  classify filename = None ->
  stdout_encodes ("Warning: Unsupported file type: " +:+ filename) = true ->
  process_file output_folder filename w
  = (Ok tt,
     if ne_str v filename then
       with_events w
         [Logged WARNING ("Unsupported file type: " +:+ filename);
          Printed ("Warning: Unsupported file type: " +:+ filename)]
     else w).
Proof.
  intros Hcfg Hkind Hline.
  unfold FileProcesser.process_file, try_except_Exception,
    FileProcesser.dispatch.
  unfold classify in Hkind.
  destruct (Str.endswith (Str.lower filename) ".pdf"); [discriminate|].
  destruct (Str.endswith (Str.lower filename) ".txt"); [discriminate|].
  destruct (Str.endswith (Str.lower filename) ".docx"); [discriminate|].
  cbv beta iota zeta. rewrite unsupported_branch, Hcfg, Hline.
  destruct (ne_str v filename); reflexivity.
Qed.

End Facts.

(** The kind of a file is read off its extension whatever the case of
    its letters. *)
Lemma classify_by_extension stem ext :
  (Str.lower ext = ".pdf" -> classify (stem +:+ ext)
                             = Some PDF) /\
  (Str.lower ext = ".txt" -> classify (stem +:+ ext)
                             = Some TXT) /\
  (Str.lower ext = ".docx" -> classify (stem +:+ ext)
                              = Some WORD).
Proof.
  unfold classify. rewrite StrFacts.lower_append.
  repeat split; intros ->;
    rewrite !StrFacts.endswith_append by (simpl; lia); reflexivity.
Qed.

(** Three names are listed in one of six orders. *)
Lemma three_listed (a b c : string) l :
  List.NoDup [a; b; c] -> Permutation l [a; b; c] ->
  l = [a; b; c] \/ l = [a; c; b] \/ l = [b; a; c] \/
  l = [b; c; a] \/ l = [c; a; b] \/ l = [c; b; a].
Proof.
  intros Hnd Hp. pose proof (Permutation_length Hp) as Hlen.
  destruct l as [|x [|y [|z [|]]]]; try discriminate Hlen.
  assert (Hnd' : List.NoDup [x; y; z])
    by (eapply Permutation_NoDup; [symmetry; exact Hp|exact Hnd]).
  assert (Hx : In x [a; b; c]) by (eapply Permutation_in; [exact Hp|simpl; auto]).
  assert (Hy : In y [a; b; c]) by (eapply Permutation_in; [exact Hp|simpl; auto]).
  assert (Hz : In z [a; b; c]) by (eapply Permutation_in; [exact Hp|simpl; auto]).
  inversion Hnd' as [|? ? Hn1 Hnd1]. inversion Hnd1 as [|? ? Hn2 _].
  simpl in Hx, Hy, Hz, Hn1, Hn2.
  destruct Hx as [<-|[<-|[<-|[]]]], Hy as [<-|[<-|[<-|[]]]],
           Hz as [<-|[<-|[<-|[]]]];
    first [ exfalso; apply Hn1; auto; fail
          | exfalso; apply Hn2; auto; fail
          | auto 10 ].
Qed.

Import Demo.

Lemma corrupt_pdf_failures a b c d e :
  raises_only_Exception (corrupt_pdf a b c d e).
Proof. intros v x v' [= <- _]. reflexivity. Qed.

Lemma index_text_failures a b : raises_only_Exception (index_text a b).
Proof. intros v x v' [=]. Qed.

Lemma corrupt_pdf_failures_shown a b c d e :
  failures_can_be_shown Str.utf8 (corrupt_pdf a b c d e).
Proof. intros v x v' [= <- _]. reflexivity. Qed.

Lemma index_text_failures_shown a b :
  failures_can_be_shown Str.utf8 (index_text a b).
Proof. intros v x v' [=]. Qed.

Lemma strict_utf8_sound : sound_stdout Str.utf8.
Proof. split; [apply StrFacts.utf8_of_ascii|apply StrFacts.utf8_append]. Qed.

Lemma as_put_lists : lists_what_is_there as_put.
Proof. intros names. apply Permutation_refl. Qed.

(** C1 on the code: the lines that quote a file's name are printed
    inside [try:] and again inside the [except] block.  A name that
    standard output cannot encode makes the first print raise; the
    error is caught and logged, and the print of the [except] block
    raises in its turn, with nothing to catch it.  Whatever the order
    of the listing, the run over a folder that holds such a name next
    to a text file ends in [UnicodeEncodeError]: the files listed
    before the name have been handed to their extractors, those listed
    after it never are, and the closing line is not reached. *)
Theorem unprintable_name_ends_the_run order :
  lists_what_is_there order ->
  exists before after e w',
    order [escaped_name; "b.txt"; "extracted_images"]
    = before ++ escaped_name :: after /\
    process_all_files (configured "extracted_images") Str.utf8 order untouched
      corrupt_pdf index_text index_text "data" tt "gpt-4o" tt
      (start (Folder [(escaped_name, RegularFile); ("b.txt", RegularFile)]))
    = (Raise e, w') /\
    exc_cls e = ExceptionSubclass "UnicodeEncodeError" /\
    exc_context e = Some encode_error /\
    List.filter is_call (trace w') = flat_map (expected_calls "data") before /\
    In (Logged ERROR ("Error processing file " +:+ escaped_name +:+ ": "
                      +:+ exc_str encode_error)) (trace w') /\
    ~ In (Logged INFO "All files have been processed.") (trace w').
Proof.
  intros Horder.
  destruct (run_enters_the_loop (configured "extracted_images") Str.utf8 order
              untouched corrupt_pdf index_text index_text "data" tt "gpt-4o" tt
              [(escaped_name, RegularFile); ("b.txt", RegularFile)]
              (start (Folder [(escaped_name, RegularFile);
                              ("b.txt", RegularFile)]))
              eq_refl Horder eq_refl)
    as (w1 & Hmk & _ & _ & _ & _ & Hrun); [discriminate|].
  vm_compute in Hmk. injection Hmk as <-.
  change (listing_with order
            (extracted_images_foldername (configured "extracted_images"))
            [(escaped_name, RegularFile); ("b.txt", RegularFile)])
    with (order [escaped_name; "b.txt"; "extracted_images"]) in Hrun.
  assert (Hnd : List.NoDup [escaped_name; "b.txt"; "extracted_images"]).
  { repeat constructor; simpl; intuition discriminate. }
  pose proof (three_listed _ _ _ _ Hnd
                (Horder [escaped_name; "b.txt"; "extracted_images"]))
    as Hcases.
  destruct Hcases as [H|[H|[H|[H|[H|H]]]]];
    rewrite H in Hrun |- *;
    match type of Hrun with
    | _ = ?rhs =>
        let v := eval vm_compute in rhs in
        assert (Hv : rhs = v) by (vm_compute; reflexivity);
        rewrite Hv in Hrun; clear Hv
    end;
    rewrite Hrun;
    [ exists [], ["b.txt"; "extracted_images"]
    | exists [], ["extracted_images"; "b.txt"]
    | exists ["b.txt"], ["extracted_images"]
    | exists ["b.txt"; "extracted_images"], []
    | exists ["extracted_images"], ["b.txt"]
    | exists ["extracted_images"; "b.txt"], [] ];
    eexists _, _;
    (split; [reflexivity|]); (split; [reflexivity|]);
    (split; [reflexivity|]); (split; [reflexivity|]);
    (split; [reflexivity|]);
    (split; [vm_compute; tauto|]);
    intros Hin; vm_compute in Hin;
    repeat (destruct Hin as [Hin|Hin]; [discriminate Hin|]);
    exact Hin.
Qed.

Lemma unprintable_name_ends_the_run_witness :
  exists before after e w',
    as_put [escaped_name; "b.txt"; "extracted_images"]
    = before ++ escaped_name :: after /\
    run (configured "extracted_images")
        (Folder [(escaped_name, RegularFile); ("b.txt", RegularFile)])
    = (Raise e, w') /\
    exc_cls e = ExceptionSubclass "UnicodeEncodeError" /\
    exc_context e = Some encode_error /\
    List.filter is_call (trace w') = flat_map (expected_calls "data") before /\
    In (Logged ERROR ("Error processing file " +:+ escaped_name +:+ ": "
                      +:+ exc_str encode_error)) (trace w') /\
    ~ In (Logged INFO "All files have been processed.") (trace w').
Proof.
  apply (unprintable_name_ends_the_run as_put).
  intros names. apply Permutation_refl.
Defined.


(** C6 on the code: in an existing, empty data folder the image
    directory is made before the folder is listed, so the listing is
    not empty; the run skips the directory, reports that all files were
    processed, and gives no warning. *)
Theorem empty_folder_run_gives_no_warning :
  run (configured "extracted_images") (Folder [])
  = (Ok tt,
     {| fs := Folder [("extracted_images", Directory)];
        vector_db := [];
        trace := [Logged INFO "All files have been processed.";
                  Printed "All files have been processed."] |}).
Proof. vm_compute. reflexivity. Qed.

(** C5 on the code: with no image directory name in the configuration
    the default name is used for the directory, but the comparison in
    the last branch looks the key up again and fails; an unsupported
    file and the image directory itself end in an error line instead of
    a warning and a silent skip. *)
Theorem unsupported_file_without_configured_name :
  run ∅ (Folder [("notes.xyz", RegularFile)])
  = (Ok tt,
     {| fs := Folder [("notes.xyz", RegularFile);
                      ("extracted_images", Directory)];
        vector_db := [];
        trace :=
          [Logged ERROR "Error processing file notes.xyz: 'image_directory_name'";
           Printed "Error processing file notes.xyz: 'image_directory_name'";
           Logged ERROR
             "Error processing file extracted_images: 'image_directory_name'";
           Printed
             "Error processing file extracted_images: 'image_directory_name'";
           Logged INFO "All files have been processed.";
           Printed "All files have been processed."] |}).
Proof. vm_compute. reflexivity. Qed.

(** The same slip with an empty name configured: the directory the run
    has just made is reported as an unsupported file. *)
Example image_directory_warned_about_with_empty_name :
  List.filter is_warning
    (trace (snd (run (configured "") (Folder []))))
  = [Logged WARNING "Unsupported file type: extracted_images"].
Proof. vm_compute. reflexivity. Qed.

(** An interruption is not an instance of [Exception]: it is not caught
    by the loop body and ends the run. *)
Example interrupt_is_not_caught :
  fst (process_all_files (configured "extracted_images") Str.utf8 as_put
         untouched interrupted_pdf index_text index_text "data" tt "gpt-4o" tt
         (start (Folder [("a.pdf", RegularFile)])))
  = Raise interrupted.
Proof. vm_compute. reflexivity. Qed.

End FileProcesserFacts.

(** ** The splitter *)

Module ChunkerFacts.

Import Chunker.

Lemma length_zero_empty (T : string) : String.length T = 0%nat -> T = "".
Proof. destruct T; [reflexivity|discriminate]. Qed.

(** The relation has at most one result for a text. *)
Lemma splits_functional size overlap T r1 r2 :
  splits size overlap T r1 -> splits size overlap T r2 -> r1 = r2.
Proof.
  intros H1. revert r2.
  induction H1 as [|T Hne Hlen|T rest Hlen Hrest IH]; intros r2 H2.
  - inversion H2 as [|T' Hne' Hlen'|T' rest' Hlen' Hrest']; subst;
      [reflexivity|contradiction|simpl in Hlen'; lia].
  - inversion H2 as [|T' Hne' Hlen'|T' rest' Hlen' Hrest']; subst;
      [contradiction|reflexivity|lia].
  - inversion H2 as [|T' Hne' Hlen'|T' rest' Hlen' Hrest']; subst;
      [simpl in Hlen; lia|lia|].
    f_equal. apply IH. assumption.
Qed.

(** The function computes the relation, given fuel beyond the length of
    the text and a window that advances. *)
Lemma windows_splits fuel size overlap T :
  (overlap < size)%nat -> (String.length T < fuel)%nat ->
  splits size overlap T (windows fuel size overlap T).
Proof.
  intros Hadv. revert T.
  induction fuel as [|fuel IH]; intros T Hfuel; [lia|]. simpl.
  destruct (Nat.eqb_spec (String.length T) 0) as [Hz|Hnz].
  - rewrite (length_zero_empty T Hz). constructor.
  - destruct (Nat.leb_spec (String.length T) size) as [Hle|Hgt].
    + apply splits_last; [|assumption]. intros ->. now apply Hnz.
    + apply splits_window; [assumption|]. apply IH.
      rewrite StrFacts.length_drop. lia.
Qed.

Lemma valid_bounds c :
  valid c = true ->
  (Z.to_nat (chunk_overlap c) < Z.to_nat (chunk_size c))%nat.
Proof.
  unfold valid. intros H.
  apply andb_true_iff in H. destruct H as [H Hlt].
  apply andb_true_iff in H. destruct H as [Hpos Hnn].
  apply Z.ltb_lt in Hpos, Hlt. apply Z.leb_le in Hnn. lia.
Qed.

(** A call on a valid configuration returns, and what it returns is the
    sequence of the relation. *)
Lemma split_total c T :
  valid c = true -> exists r, split c T = Ok r /\ split_returns c T r.
Proof.
  intros Hv. unfold split, split_returns. rewrite Hv.
  eexists. split; [reflexivity|]. split; [reflexivity|].
  apply windows_splits; [now apply valid_bounds|lia].
Qed.

(** C9.  Two calls of split with the same text, chunk size and chunk
    overlap return the same sequence of chunks, in the same order. *)
Theorem split_is_deterministic c T r1 r2 :
  split_returns c T r1 -> split_returns c T r2 -> r1 = r2.
Proof.
  intros [_ H1] [_ H2]. eapply splits_functional; eassumption.
Qed.

Lemma split_is_deterministic_witness :
  ["abcd"; "defg"; "gh"] = ["abcd"; "defg"; "gh"].
Proof.
  apply (split_is_deterministic (text_chunker 4 1) "abcdefgh").
  - split; [reflexivity|].
    apply (windows_splits 9 4 1 "abcdefgh"); simpl; lia.
  - split; [reflexivity|].
    apply (windows_splits 9 4 1 "abcdefgh"); simpl; lia.
Defined.

End ChunkerFacts.

(** ** More on the indexer: what the store sees of a source name *)

Module SourceFacts.

Import VectorDatabase.

(** X4.  The Source that either insetter attaches is the last component
    of the source name: the name is a directory part, empty or ending
    in the separator, followed by the Source, and the Source holds no
    separator. *)
Theorem source_is_last_component image_path pdf_name page_no x :
  exists source dir,
    metadata (text_document pdf_name page_no x) !! "Source"
    = Some (PyStr source) /\
    metadata (image_document image_path pdf_name page_no x) !! "Source"
    = Some (PyStr source) /\
    pdf_name = dir +:+ source /\
    (dir = "" \/ exists d, dir = d +:+ "/") /\
    Str.rfind_plus1 "/" source = 0%nat.
Proof.
  destruct (StrFacts.split_at_rfind pdf_name) as (dir & Hp & Hdir).
  exists (Str.basename pdf_name), dir.
  split; [reflexivity|]. split; [reflexivity|].
  split; [exact Hp|]. split; [exact Hdir|]. apply StrFacts.no_sep_after_rfind.
Qed.

(** X5.  The directory is lost: the same file name under two
    directories gets the same Source, so the store cannot tell the two
    files apart by it. *)
Theorem same_name_same_source dir1 dir2 name page_no x :
  Str.rfind_plus1 "/" name = 0%nat ->
  metadata (text_document (dir1 +:+ "/" +:+ name) page_no x) !! "Source"
  = metadata (text_document (dir2 +:+ "/" +:+ name) page_no x) !! "Source".
Proof.
  intros Hname.
  change (Some (PyStr (Str.basename (dir1 +:+ "/" +:+ name)))
          = Some (PyStr (Str.basename (dir2 +:+ "/" +:+ name)))).
  now rewrite !StrFacts.basename_strips_directory.
Qed.

Lemma same_name_same_source_witness :
  metadata (text_document ("2023" +:+ "/" +:+ "report.pdf") 1 "x") !! "Source"
  = metadata (text_document ("2024" +:+ "/" +:+ "report.pdf") 1 "x") !! "Source".
Proof. apply (same_name_same_source "2023" "2024" "report.pdf" 1 "x"). reflexivity. Defined.

Section Store.

Context {V : Type}.
Variable add_documents : list Document -> V -> result unit * V.

(** X3.  A failure of the store that is not an instance of [Exception]
    is not wrapped: it leaves either insetter as it was raised, after the
    one call to [add_documents]. *)
Theorem other_failures_pass_unwrapped xs image_path pdf_name page_no
    (w : store V) e :
  xs <> [] -> 1 <= page_no ->
  is_Exception (exc_cls e) = false ->
  (fst (add_documents (map (text_document pdf_name page_no) xs) (db w))
   = Raise e ->
   fst (text_db_insetter add_documents xs pdf_name page_no w) = Raise e /\
   add_calls (snd (text_db_insetter add_documents xs pdf_name page_no w))
   = add_calls w ++ [map (text_document pdf_name page_no) xs]) /\
  (fst (add_documents (map (image_document image_path pdf_name page_no) xs)
                      (db w))
   = Raise e ->
   fst (image_db_insetter add_documents xs image_path pdf_name page_no w)
   = Raise e /\
   add_calls (snd (image_db_insetter add_documents xs image_path pdf_name
                                     page_no w))
   = add_calls w ++ [map (image_document image_path pdf_name page_no) xs]).
Proof.
  intros Hxs Hpage Hexc.
  rewrite VectorDatabaseFacts.text_db_insetter_valid,
    VectorDatabaseFacts.image_db_insetter_valid by assumption.
  split; intros Hfail.
  - pose proof (VectorDatabaseFacts.guarded_call_cases add_documents
                  (map (text_document pdf_name page_no) xs) w) as H.
    simpl in H. rewrite Hfail, Hexc in H. rewrite H. split; reflexivity.
  - pose proof (VectorDatabaseFacts.guarded_call_cases add_documents
                  (map (image_document image_path pdf_name page_no) xs) w) as H.
    simpl in H. rewrite Hfail, Hexc in H. rewrite H. split; reflexivity.
Qed.

End Store.

Import Demo.

Lemma other_failures_pass_unwrapped_witness :
  fst (text_db_insetter (reject_with interrupted) ["chunk"] "a.txt" 1
                        empty_store) = Raise interrupted /\
  fst (image_db_insetter (reject_with interrupted) ["chunk"] "img/a_1_0.png"
                         "a.txt" 1 empty_store) = Raise interrupted.
Proof.
  destruct (other_failures_pass_unwrapped (reject_with interrupted) ["chunk"]
              "img/a_1_0.png" "a.txt" 1 empty_store interrupted)
    as [Ht Hi]; [discriminate|lia|reflexivity|].
  split; [apply Ht|apply Hi]; reflexivity.
Defined.

End SourceFacts.

(** ** The retriever *)

Module RetrievalFacts.

Import VectorDatabase Retrieval.

Lemma validation_test question :
  negb (truthy question) || negb (isinstance_str question) = false
  <-> acceptable question.
Proof.
  unfold acceptable. split.
  - destruct question as [|s|z]; simpl.
    + discriminate.
    + rewrite orb_false_r. intros H. apply negb_false_iff in H.
      apply negb_true_iff in H. apply String.eqb_neq in H. eauto.
    + rewrite orb_true_r. discriminate.
  - intros (q & -> & Hq). simpl. rewrite orb_false_r.
    apply negb_false_iff, negb_true_iff. now apply String.eqb_neq.
Qed.

Section Facts.

Context {Retr B : Type}.
Variable invoke : Retr -> pyobj -> B -> result (list Document) * B.

(** X1.  A question that is [None], empty or not a string is refused
    with a [ValueError] after one error record; the retriever is not
    invoked and the state behind it is untouched.  Conversely, any
    instance of [Exception] that leaves [retrieve_documents] is that
    refusal. *)
Theorem invalid_question_is_refused retriever question (w : session B) :
  (~ acceptable question ->
   retrieve_documents invoke retriever question w
   = (Raise (Exc ValueError "The question must be a non-empty string." None),
      {| backend := backend w; invoked := invoked w;
         records := records w
                    ++ [mkLogRecord FileProcesser.ERROR
                          "Invalid question provided: %s" [question]] |}))
  /\
  (forall e w',
     retrieve_documents invoke retriever question w = (Raise e, w') ->
     is_Exception (exc_cls e) = true ->
     ~ acceptable question /\ invoked w' = invoked w /\ backend w' = backend w).
Proof.
  unfold retrieve_documents.
  destruct (negb (truthy question) || negb (isinstance_str question)) eqn:Ht.
  - assert (Hbad : ~ acceptable question).
    { intros Hok. apply validation_test in Hok. congruence. }
    split; [reflexivity|].
    intros e w' [= <- <-] _. repeat split. exact Hbad.
  - apply validation_test in Ht. split; [contradiction|].
    intros e w'. unfold try_except_Exception, bind, call_invoke, log, ret.
    destruct (invoke retriever question (backend w)) as [[docs|e0] b'].
    + intros [=].
    + simpl. destruct (is_Exception (exc_cls e0)) eqn:E0; [intros [=]|].
      intros [= <- <-] He. congruence.
Qed.

(** X2.  On a question that is a string and not empty the retriever is
    invoked once, with that question.  Its documents are returned as
    they are, with a record of their number; when it raises an instance
    of [Exception] the failure is logged and the empty list is returned,
    so that the caller sees what it would see of a query without
    matches. *)
Theorem retriever_failure_reads_as_no_match retriever question (w : session B) :
  acceptable question ->
  invoked (snd (retrieve_documents invoke retriever question w))
  = invoked w ++ [question] /\
  (forall docs,
     fst (invoke retriever question (backend w)) = Ok docs ->
     fst (retrieve_documents invoke retriever question w) = Ok docs /\
     records (snd (retrieve_documents invoke retriever question w))
     = records w
       ++ [mkLogRecord FileProcesser.INFO
             "Retrieved %d documents for question: %s"
             [ObjInt (Z.of_nat (length docs)); question]]) /\
  (forall e,
     fst (invoke retriever question (backend w)) = Raise e ->
     is_Exception (exc_cls e) = true ->
     fst (retrieve_documents invoke retriever question w) = Ok [] /\
     records (snd (retrieve_documents invoke retriever question w))
     = records w
       ++ [mkLogRecord FileProcesser.ERROR "Error retrieving documents: %s"
             [ObjStr (exc_str e)]]).
Proof.
  intros Hok. apply validation_test in Hok.
  unfold retrieve_documents. rewrite Hok.
  unfold try_except_Exception, bind, call_invoke, log, ret.
  destruct (invoke retriever question (backend w)) as [[docs|e0] b']; simpl.
  - split; [reflexivity|]. split.
    + intros docs' [= <-]. split; reflexivity.
    + intros e [=].
  - destruct (is_Exception (exc_cls e0)) eqn:E0; simpl.
    + split; [reflexivity|]. split; [intros docs [=]|].
      intros e [= <-] _. split; reflexivity.
    + split; [reflexivity|]. split; [intros docs [=]|].
      intros e [= <-] He. congruence.
Qed.

End Facts.

Import Desk.

Lemma invalid_question_is_refused_witness :
  fst (retrieve_documents first_k 1%nat (ObjStr "") fresh_session)
  = Raise (Exc ValueError "The question must be a non-empty string." None) /\
  invoked (snd (retrieve_documents first_k 1%nat (ObjStr "") fresh_session))
  = [].
Proof.
  rewrite (proj1 (invalid_question_is_refused first_k 1%nat (ObjStr "")
                    fresh_session)).
  - split; reflexivity.
  - intros (q & [= <-] & Hq). now apply Hq.
Defined.

Lemma retriever_failure_reads_as_no_match_witness :
  fst (retrieve_documents first_k 1%nat (ObjStr "boom") fresh_session) = Ok [] /\
  fst (retrieve_documents first_k 5%nat (ObjStr "zebra") fresh_session)
  = Ok two_documents.
Proof.
  split.
  - destruct (retriever_failure_reads_as_no_match first_k 1%nat (ObjStr "boom")
                fresh_session) as (_ & _ & Hfail).
    + exists "boom". split; [reflexivity|discriminate].
    + apply (Hfail (Exc (ExceptionSubclass "ConnectionError") "store is down"
                        None)); vm_compute; reflexivity.
  - destruct (retriever_failure_reads_as_no_match first_k 5%nat (ObjStr "zebra")
                fresh_session) as (_ & Hok & _).
    + exists "zebra". split; [reflexivity|discriminate].
    + apply Hok. vm_compute. reflexivity.
Defined.

End RetrievalFacts.

(** ** More on the orchestrator *)

Module PipelineFacts.

Import FileProcesser Pipeline.

Section Facts.

Context {V Client Chunker : Type}.
Variable config_settings : gmap string cfgval.
Variable stdout_encodes : string -> bool.
Variable listing_order : list string -> list string.
Variable os_makedirs_beyond : string -> node -> result unit * node.
Variable process_pdf :
  string -> string -> Client -> string -> Chunker -> V -> result unit * V.
Variable process_text : string -> Chunker -> V -> result unit * V.
Variable process_word_text : string -> Chunker -> V -> result unit * V.
Variables (data_folder : string) (openai_client : Client)
          (model_name : string) (text_chunker : Chunker).

Abbreviation print := (print (V:=V) stdout_encodes).
Abbreviation report_failure := (report_failure (V:=V) stdout_encodes).
Abbreviation os_makedirs_exist_ok :=
  (os_makedirs_exist_ok (V:=V) os_makedirs_beyond).
Abbreviation os_listdir := (os_listdir (V:=V) listing_order).
Abbreviation dispatch :=
  (dispatch config_settings stdout_encodes process_pdf process_text
            process_word_text data_folder openai_client model_name
            text_chunker).
Abbreviation process_file :=
  (process_file config_settings stdout_encodes process_pdf process_text
                process_word_text data_folder openai_client model_name
                text_chunker).
Abbreviation process_all_files :=
  (process_all_files config_settings stdout_encodes listing_order
                     os_makedirs_beyond process_pdf process_text
                     process_word_text data_folder openai_client model_name
                     text_chunker).
Abbreviation extractor_on output_folder :=
  (extractor_on process_pdf process_text process_word_text data_folder
                output_folder openai_client model_name text_chunker).
Abbreviation store_after output_folder :=
  (store_after process_pdf process_text process_word_text data_folder
               output_folder openai_client model_name text_chunker).
Abbreviation image_directory :=
  (extracted_images_foldername config_settings).
Abbreviation listing_with := (listing_with listing_order).
Abbreviation run_enters_the_loop :=
  (FileProcesserFacts.run_enters_the_loop config_settings stdout_encodes
     listing_order os_makedirs_beyond process_pdf process_text
     process_word_text data_folder openai_client model_name text_chunker).

(** *** What is added to the trace

    The statements of the loop add to the trace, and none of them adds
    the warning of the empty listing, whether they return or raise. *)

Lemma ret_adds_no_warning {A} (a : A) : adds_no_warning (V:=V) (ret a).
Proof. intros w. exists []. split; [simpl; now rewrite app_nil_r|intros []]. Qed.

Lemma raise_adds_no_warning {A} e : adds_no_warning (V:=V) (A:=A) (raise e).
Proof. intros w. exists []. split; [simpl; now rewrite app_nil_r|intros []]. Qed.

Lemma emit_adds_no_warning ev :
  ev <> empty_listing_warning -> adds_no_warning (V:=V) (emit ev).
Proof.
  intros Hev w. exists [ev]. split; [reflexivity|].
  intros [H|[]]. now apply Hev.
Qed.

Lemma print_adds_no_warning msg : adds_no_warning (print msg).
Proof.
  unfold FileProcesser.print. destruct (stdout_encodes msg).
  - apply emit_adds_no_warning. discriminate.
  - apply raise_adds_no_warning.
Qed.

Lemma call_adds_no_warning which file_path f :
  adds_no_warning (V:=V) (call which file_path f).
Proof.
  intros w. unfold call. destruct (f (vector_db w)) as [r v'].
  exists [Called which file_path]. split; [reflexivity|].
  intros [H|[]]. discriminate H.
Qed.

Lemma bind_adds_no_warning {A B} (m : M (world V) A) (k : A -> M (world V) B) :
  adds_no_warning m -> (forall a, adds_no_warning (k a)) ->
  adds_no_warning (bind m k).
Proof.
  intros Hm Hk w. unfold bind. destruct (Hm w) as (new1 & H1 & Hno1).
  destruct (m w) as [[a|e] w1]; cbn [snd] in H1.
  - destruct (Hk a w1) as (new2 & H2 & Hno2).
    exists (new1 ++ new2). split; [now rewrite H2, H1, app_assoc|].
    intros Hin. apply in_app_or in Hin. tauto.
  - exists new1. split; assumption.
Qed.

Lemma try_adds_no_warning {A} (m : M (world V) A) h :
  adds_no_warning m -> (forall e, adds_no_warning (h e)) ->
  adds_no_warning (try_except_Exception m h).
Proof.
  intros Hm Hh w. unfold try_except_Exception.
  destruct (Hm w) as (new1 & H1 & Hno1).
  destruct (m w) as [[a|e] w1]; cbn [snd] in H1.
  - exists new1. split; assumption.
  - destruct (is_Exception (exc_cls e)).
    + destruct (Hh e w1) as (new2 & H2 & Hno2).
      exists (new1 ++ new2). split; [now rewrite H2, H1, app_assoc|].
      intros Hin. apply in_app_or in Hin. tauto.
    + exists new1. split; assumption.
Qed.

Lemma while_handling_adds_no_warning {A} e (m : M (world V) A) :
  adds_no_warning m -> adds_no_warning (while_handling e m).
Proof.
  intros Hm w. unfold while_handling. destruct (Hm w) as (new & H & Hno).
  destruct (m w) as [[a|e'] w1]; exists new; split; assumption.
Qed.

Lemma for_each_adds_no_warning {A} (xs : list A) (body : A -> M (world V) unit) :
  (forall x, adds_no_warning (body x)) -> adds_no_warning (for_each xs body).
Proof.
  intros Hbody. induction xs as [|x xs IH].
  - apply ret_adds_no_warning.
  - apply bind_adds_no_warning; [apply Hbody|intros _; exact IH].
Qed.

Ltac no_warning :=
  repeat first
    [ apply bind_adds_no_warning; [|intros ?]
    | apply print_adds_no_warning
    | apply call_adds_no_warning
    | apply ret_adds_no_warning
    | apply raise_adds_no_warning
    | apply emit_adds_no_warning; discriminate ].

Lemma process_file_adds_no_warning output_folder filename :
  adds_no_warning (process_file output_folder filename).
Proof.
  apply try_adds_no_warning.
  - unfold FileProcesser.dispatch, config_settings_getitem.
    repeat match goal with
           | |- context [if ?c then _ else _] => destruct c
           end;
      try (unfold logger_info; no_warning; fail).
    all: destruct (config_settings !! "image_directory_name") as [v|];
      unfold logger_warning; no_warning.
    all: destruct (ne_str a filename); no_warning.
  - intros e. apply while_handling_adds_no_warning.
    unfold logger_error. no_warning.
Qed.

(** X6.  In a data folder that exists, and with an image directory
    name that is a single component, the image directory is made before
    the folder is listed, so the listing is never empty whatever the
    order of the file system: whatever the folder holds, whatever the
    extractors do and whatever standard output can write, the run does
    not give the warning that no files were found, and the image
    directory is among the files it goes through. *)
Theorem existing_folder_is_never_empty entries (w : world V) :
  fs w = Folder entries ->
  find_entry image_directory entries <> Some RegularFile ->
  Str.single_component image_directory = true ->
  lists_what_is_there listing_order ->
  exists w1 files,
    os_makedirs_exist_ok image_directory w = (Ok tt, w1) /\
    os_listdir w1 = (Ok files, w1) /\
    In image_directory files /\
    exists new,
      trace (snd (process_all_files w)) = trace w ++ new /\
      ~ In empty_listing_warning new.
Proof.
  intros Hfs Hfile Hname Horder.
  destruct (run_enters_the_loop entries w Hname Horder Hfs Hfile)
    as (w1 & Hmk & _ & Htr & Hls & Hin & ->).
  exists w1, (listing_with image_directory entries).
  split; [exact Hmk|]. split; [exact Hls|]. split; [exact Hin|].
  rewrite <- Htr.
  assert (Hloop : adds_no_warning (V:=V)
            (for_each (listing_with image_directory entries)
               (process_file (Str.path_join data_folder image_directory)) ;;
             logger_info "All files have been processed." ;;
             print "All files have been processed.")).
  { apply bind_adds_no_warning.
    - apply for_each_adds_no_warning. intros f.
      apply process_file_adds_no_warning.
    - intros _. unfold logger_info. no_warning. }
  apply Hloop.
Qed.

(** X9.  With a name under [image_directory_name] in the configuration,
    a file of no supported kind draws one warning, logged and printed
    when standard output can write the line, unless its name is that
    very name: then nothing is said and nothing changes.  No extractor
    is called either way. *)
Theorem unsupported_file_is_warned_about output_folder filename v (w : world V) :
  config_settings !! "image_directory_name" = Some v ->
  classify filename = None ->
  (ne_str v filename = true ->
   stdout_encodes ("Warning: Unsupported file type: " +:+ filename) = true) ->
  process_file output_folder filename w
  = (Ok tt,
     if ne_str v filename then
       with_events w
         [Logged WARNING ("Unsupported file type: " +:+ filename);
          Printed ("Warning: Unsupported file type: " +:+ filename)]
     else w).
Proof.
  intros Hcfg Hkind Hline.
  unfold FileProcesser.process_file, try_except_Exception,
    FileProcesser.dispatch.
  unfold classify in Hkind.
  destruct (Str.endswith (Str.lower filename) ".pdf"); [discriminate|].
  destruct (Str.endswith (Str.lower filename) ".txt"); [discriminate|].
  destruct (Str.endswith (Str.lower filename) ".docx"); [discriminate|].
  cbv beta iota zeta.
  rewrite FileProcesserFacts.unsupported_branch, Hcfg.
  destruct (ne_str v filename); [|reflexivity].
  rewrite (Hline eq_refl). reflexivity.
Qed.


Hypothesis pdf_failures :
  forall a b c d e, raises_only_Exception (process_pdf a b c d e).
Hypothesis text_failures : forall a b, raises_only_Exception (process_text a b).
Hypothesis word_failures :
  forall a b, raises_only_Exception (process_word_text a b).

Lemma extractor_on_failures output_folder which filename :
  raises_only_Exception (extractor_on output_folder which filename).
Proof. destruct which; simpl; auto. Qed.

Lemma classify_branch filename which :
  classify filename = Some which ->
  match which with
  | PDF => Str.endswith (Str.lower filename) ".pdf" = true
  | TXT => Str.endswith (Str.lower filename) ".pdf" = false /\
           Str.endswith (Str.lower filename) ".txt" = true
  | WORD => Str.endswith (Str.lower filename) ".pdf" = false /\
            Str.endswith (Str.lower filename) ".txt" = false /\
            Str.endswith (Str.lower filename) ".docx" = true
  end.
Proof.
  unfold classify.
  destruct (Str.endswith (Str.lower filename) ".pdf");
    [intros [= <-]; reflexivity|].
  destruct (Str.endswith (Str.lower filename) ".txt");
    [intros [= <-]; split; reflexivity|].
  destruct (Str.endswith (Str.lower filename) ".docx");
    [intros [= <-]; repeat split|discriminate].
Qed.

(** The body of the loop on a file of a supported kind whose opening
    line can be written, up to the answer of its extractor. *)
Ltac line_written H :=
  match goal with
  | |- context [if stdout_encodes ?l then _ else _] =>
      replace (stdout_encodes l) with true by (symmetry; exact H)
  end.

Ltac enter_supported_branch Hkind Hrun Hopen which :=
  apply classify_branch in Hkind;
  unfold FileProcesser.process_file, try_except_Exception,
    FileProcesser.dispatch;
  destruct which; simpl in Hkind, Hrun;
    [rewrite Hkind
    |destruct Hkind as [-> ->]
    |destruct Hkind as (-> & -> & ->)];
    cbv beta iota zeta;
    rewrite FileProcesserFacts.extractor_branch;
    line_written Hopen; rewrite Hrun.

(** X8.  A file of a supported kind gets its two opening lines and the
    call of its extractor; then the two closing lines when the
    extractor returned, or the error line with the file's name and the
    cause, logged and printed, when it raised -- never both.  This is
    so when standard output can write the opening line and the line
    that closes; the body of the loop then returns in either case,
    with the store as the extractor left it. *)
Theorem supported_file_progress output_folder filename which (w : world V) r v' :
  classify filename = Some which ->
  extractor_on output_folder which filename (vector_db w) = (r, v') ->
  stdout_encodes ("Processing " +:+ label which +:+ " file: " +:+ filename)
  = true ->
  stdout_encodes
    match r with
    | Ok _ => "Processed " +:+ label which +:+ " file: " +:+ filename
    | Raise e => "Error processing file " +:+ filename +:+ ": " +:+ exc_str e
    end = true ->
  process_file output_folder filename w
  = (Ok tt,
     {| fs := fs w;
        vector_db := v';
        trace :=
          trace w
          ++ [Logged INFO ("Processing " +:+ label which +:+ " file: "
                           +:+ filename);
              Printed ("Processing " +:+ label which +:+ " file: "
                       +:+ filename);
              Called which (Str.path_join data_folder filename)]
          ++ match r with
             | Ok _ =>
                 [Logged INFO ("Processed " +:+ label which +:+ " file: "
                               +:+ filename);
                  Printed ("Processed " +:+ label which +:+ " file: "
                           +:+ filename)]
             | Raise e =>
                 [Logged ERROR ("Error processing file " +:+ filename +:+ ": "
                                +:+ exc_str e);
                  Printed ("Error processing file " +:+ filename +:+ ": "
                           +:+ exc_str e)]
             end |}).
Proof.
  intros Hkind Hrun Hopen Hclose.
  pose proof (extractor_on_failures output_folder which filename) as Hexc.
  pose proof Hrun as Hrun'.
  enter_supported_branch Hkind Hrun Hopen which;
    (destruct r as [[]|e]; [line_written Hclose; reflexivity|]);
    rewrite (Hexc _ _ _ Hrun'), FileProcesserFacts.report_failure_outcome;
    line_written Hclose; unfold with_events; cbn [fs vector_db trace];
    rewrite <- !app_assoc; reflexivity.
Qed.

Hypothesis stdout_sound : sound_stdout stdout_encodes.
Hypothesis pdf_failures_shown :
  forall a b c d e, failures_can_be_shown stdout_encodes (process_pdf a b c d e).
Hypothesis text_failures_shown :
  forall a b, failures_can_be_shown stdout_encodes (process_text a b).
Hypothesis word_failures_shown :
  forall a b, failures_can_be_shown stdout_encodes (process_word_text a b).

Ltac writable :=
  repeat first
    [ assumption
    | apply (proj1 stdout_sound); reflexivity
    | apply (proj2 stdout_sound) ].

Lemma extractor_on_failures_shown output_folder which filename :
  failures_can_be_shown stdout_encodes
    (extractor_on output_folder which filename).
Proof. destruct which; simpl; auto. Qed.

(** The body of the loop on a file whose name can be written: it
    returns, and the store is what the extractor of the file left. *)
Lemma process_file_store output_folder filename (w : world V) :
  stdout_encodes filename = true ->
  vector_db (snd (process_file output_folder filename w))
  = store_after output_folder (vector_db w) filename /\
  fst (process_file output_folder filename w) = Ok tt /\
  fs (snd (process_file output_folder filename w)) = fs w.
Proof.
  intros Hfile. unfold Pipeline.store_after.
  destruct (classify filename) as [which|] eqn:Hkind.
  - destruct (extractor_on output_folder which filename (vector_db w))
      as [r v'] eqn:Hrun.
    assert (Hopen : stdout_encodes ("Processing " +:+ label which +:+ " file: "
                                    +:+ filename) = true)
      by (destruct which; writable).
    assert (Hclose : stdout_encodes
              match r with
              | Ok _ => "Processed " +:+ label which +:+ " file: " +:+ filename
              | Raise e =>
                  "Error processing file " +:+ filename +:+ ": " +:+ exc_str e
              end = true).
    { destruct r as [[]|e]; [destruct which; writable|].
      pose proof (extractor_on_failures_shown output_folder which filename
                    _ _ _ Hrun).
      writable. }
    pose proof (extractor_on_failures output_folder which filename) as Hexc.
    pose proof Hrun as Hrun'.
    enter_supported_branch Hkind Hrun Hopen which;
      (destruct r as [[]|e]; [line_written Hclose; repeat split|]);
      rewrite (Hexc _ _ _ Hrun'), FileProcesserFacts.report_failure_outcome;
      line_written Hclose; repeat split.
  - unfold FileProcesser.process_file, try_except_Exception,
      FileProcesser.dispatch.
    unfold classify in Hkind.
    destruct (Str.endswith (Str.lower filename) ".pdf"); [discriminate|].
    destruct (Str.endswith (Str.lower filename) ".txt"); [discriminate|].
    destruct (Str.endswith (Str.lower filename) ".docx"); [discriminate|].
    cbv beta iota zeta. rewrite FileProcesserFacts.unsupported_branch.
    destruct (config_settings !! "image_directory_name") as [v|].
    + destruct (ne_str v filename); [|repeat split].
      replace (stdout_encodes ("Warning: Unsupported file type: "
                               +:+ filename))
        with true by (symmetry; writable).
      repeat split.
    + cbn [exc_cls is_Exception].
      rewrite FileProcesserFacts.report_failure_outcome.
      replace (stdout_encodes
                 ("Error processing file " +:+ filename +:+ ": "
                  +:+ exc_str (Exc KeyError "'image_directory_name'" None)))
        with true by (symmetry; writable).
      repeat split.
Qed.

Lemma for_each_store output_folder files (w : world V) :
  Forall (fun f => stdout_encodes f = true) files ->
  vector_db (snd (for_each files (process_file output_folder) w))
  = fold_left (store_after output_folder) files (vector_db w) /\
  fst (for_each files (process_file output_folder) w) = Ok tt.
Proof.
  intros Hfiles. revert w.
  induction Hfiles as [|f files Hf _ IH]; intros w; [split; reflexivity|].
  destruct (process_file_store output_folder f w Hf) as (Hv & Hr & _).
  change (for_each (f :: files) (process_file output_folder) w)
    with (match process_file output_folder f w with
          | (Ok _, w1) => for_each files (process_file output_folder) w1
          | (Raise e, w1) => (Raise e, w1)
          end).
  destruct (process_file output_folder f w) as [r w1]. simpl in Hv, Hr.
  subst r. cbn [fold_left]. rewrite <- Hv. apply IH.
Qed.

(** X7.  On a standard output that can write the names listed and the
    texts of the failures, a run over a data folder returns and leaves
    the store as the extractors of the listed files left it, one after
    the other in the order in which the file system lists them: what a
    failing extractor had already written stays (nothing is rolled
    back), the next file starts from there, and files of no supported
    kind change nothing. *)
Theorem store_after_run entries (w : world V) :
  fs w = Folder entries ->
  find_entry image_directory entries <> Some RegularFile ->
  Str.single_component image_directory = true ->
  lists_what_is_there listing_order ->
  Forall (fun f => stdout_encodes f = true)
         (listing_with image_directory entries) ->
  exists w1,
    os_makedirs_exist_ok image_directory w = (Ok tt, w1) /\
    os_listdir w1 = (Ok (listing_with image_directory entries), w1) /\
    fst (process_all_files w) = Ok tt /\
    vector_db (snd (process_all_files w))
    = fold_left (store_after (Str.path_join data_folder image_directory))
                (listing_with image_directory entries) (vector_db w).
Proof.
  intros Hfs Hfile Hname Horder Hfiles.
  destruct (run_enters_the_loop entries w Hname Horder Hfs Hfile)
    as (w1 & Hmk & Hv & _ & Hls & _ & ->).
  exists w1. split; [exact Hmk|]. split; [exact Hls|].
  destruct (for_each_store (Str.path_join data_folder image_directory)
              (listing_with image_directory entries) w1 Hfiles)
    as [Hstore Hok].
  destruct (for_each (listing_with image_directory entries)
              (process_file (Str.path_join data_folder image_directory)) w1)
    as [r w2] eqn:Hrun.
  simpl in Hstore, Hok. subst r.
  unfold bind. rewrite Hrun. unfold logger_info.
  rewrite FileProcesserFacts.emit_with_events.
  rewrite FileProcesserFacts.print_outcome.
  replace (stdout_encodes "All files have been processed.")
    with true by (symmetry; writable).
  cbn [fst snd with_events vector_db]. rewrite <- Hv, <- Hstore.
  split; reflexivity.
Qed.

(** X13.  The comparison with the image directory name comes after the
    tests on the extension: when that name, a single component, itself
    ends in a supported extension, the directory the run has made is
    not skipped but handed to the extractor of that kind -- on a
    standard output that can write the names listed and the texts of
    the failures, so that the loop gets as far as the directory. *)
Theorem image_directory_with_extension_is_extracted entries which (w : world V) :
  fs w = Folder entries ->
  find_entry image_directory entries <> Some RegularFile ->
  Str.single_component image_directory = true ->
  lists_what_is_there listing_order ->
  Forall (fun f => stdout_encodes f = true)
         (listing_with image_directory entries) ->
  classify image_directory = Some which ->
  In (Called which (Str.path_join data_folder image_directory))
     (trace (snd (process_all_files w))).
Proof.
  intros Hfs Hfile Hname Horder Hfiles Hkind.
  destruct (run_enters_the_loop entries w Hname Horder Hfs Hfile)
    as (w1 & _ & _ & _ & _ & Hin & ->).
  destruct (FileProcesserFacts.for_each_outcome config_settings stdout_encodes
              process_pdf process_text process_word_text data_folder
              openai_client model_name text_chunker
              pdf_failures text_failures word_failures stdout_sound
              pdf_failures_shown text_failures_shown word_failures_shown
              (Str.path_join data_folder image_directory)
              (listing_with image_directory entries) w1 Hfiles)
    as (w2 & Hrun & _ & Hcalls).
  unfold bind. rewrite Hrun. unfold logger_info.
  rewrite FileProcesserFacts.emit_with_events.
  rewrite FileProcesserFacts.print_outcome.
  replace (stdout_encodes "All files have been processed.")
    with true by (symmetry; writable).
  cbn [snd with_events trace].
  apply in_or_app. left. apply in_or_app. left.
  assert (Hc : In (Called which (Str.path_join data_folder image_directory))
                  (List.filter is_call (trace w2))).
  { rewrite Hcalls. apply in_or_app. right. apply in_flat_map.
    exists image_directory. split; [exact Hin|].
    unfold expected_calls. rewrite Hkind. now left. }
  apply List.filter_In in Hc. apply Hc.
Qed.

End Facts.

Import Demo.

Lemma existing_folder_is_never_empty_witness :
  exists w1 files,
    FileProcesser.os_makedirs_exist_ok untouched "extracted_images"
      (start (Folder [])) = (Ok tt, w1) /\
    FileProcesser.os_listdir as_put w1 = (Ok files, w1) /\
    In "extracted_images" files /\
    exists new,
      trace (snd (run (configured "extracted_images") (Folder [])))
      = [] ++ new /\
      ~ In empty_listing_warning new.
Proof.
  apply (existing_folder_is_never_empty (configured "extracted_images")
           Str.utf8 as_put untouched corrupt_pdf index_text index_text "data"
           tt "gpt-4o" tt [] (start (Folder [])));
    [reflexivity|discriminate|reflexivity|].
  intros names. apply Permutation_refl.
Defined.

Lemma supported_file_progress_witness :
  FileProcesser.process_file ∅ Str.utf8 corrupt_pdf index_text index_text
    "data" tt "gpt-4o" tt "data/extracted_images" "scan.PDF"
    (start (Folder []))
  = (Ok tt,
     {| fs := Folder [];
        vector_db := [];
        trace :=
          [Logged INFO "Processing PDF file: scan.PDF";
           Printed "Processing PDF file: scan.PDF";
           Called PDF "data/scan.PDF";
           Logged ERROR "Error processing file scan.PDF: EOF marker not found";
           Printed "Error processing file scan.PDF: EOF marker not found"] |}).
Proof.
  apply (supported_file_progress ∅ Str.utf8 corrupt_pdf index_text index_text
           "data" tt "gpt-4o" tt
           FileProcesserFacts.corrupt_pdf_failures
           FileProcesserFacts.index_text_failures
           FileProcesserFacts.index_text_failures
           "data/extracted_images" "scan.PDF" PDF (start (Folder []))
           (Raise (Exc (ExceptionSubclass "PdfReadError")
                       "EOF marker not found" None))
           []);
    reflexivity.
Defined.

Lemma store_after_run_witness :
  fst (run (configured "extracted_images")
           (Folder [("a.pdf", RegularFile); ("b.txt", RegularFile);
                    ("c.xyz", RegularFile)])) = Ok tt /\
  vector_db (snd (run (configured "extracted_images")
                      (Folder [("a.pdf", RegularFile); ("b.txt", RegularFile);
                               ("c.xyz", RegularFile)])))
  = ["data/b.txt"].
Proof.
  destruct (store_after_run (configured "extracted_images") Str.utf8 as_put
              untouched corrupt_pdf index_text index_text "data" tt "gpt-4o" tt
              FileProcesserFacts.corrupt_pdf_failures
              FileProcesserFacts.index_text_failures
              FileProcesserFacts.index_text_failures
              FileProcesserFacts.strict_utf8_sound
              FileProcesserFacts.corrupt_pdf_failures_shown
              FileProcesserFacts.index_text_failures_shown
              FileProcesserFacts.index_text_failures_shown
              [("a.pdf", RegularFile); ("b.txt", RegularFile);
               ("c.xyz", RegularFile)]
              (start (Folder [("a.pdf", RegularFile); ("b.txt", RegularFile);
                              ("c.xyz", RegularFile)])))
    as (w1 & _ & _ & Hok & Hstore).
  - reflexivity.
  - vm_compute. discriminate.
  - vm_compute. reflexivity.
  - intros names. apply Permutation_refl.
  - apply List.Forall_forall, List.forallb_forall. vm_compute. reflexivity.
  - split; [exact Hok|]. unfold run. rewrite Hstore. vm_compute. reflexivity.
Defined.

Lemma unsupported_file_is_warned_about_witness :
  FileProcesser.process_file (configured "extracted_images") Str.utf8
    corrupt_pdf index_text index_text "data" tt "gpt-4o" tt
    "data/extracted_images" "extracted_images" (start (Folder []))
  = (Ok tt, start (Folder [])) /\
  FileProcesser.process_file (configured "extracted_images") Str.utf8
    corrupt_pdf index_text index_text "data" tt "gpt-4o" tt
    "data/extracted_images" "notes.xyz" (start (Folder []))
  = (Ok tt,
     with_events (start (Folder []))
       [Logged WARNING "Unsupported file type: notes.xyz";
        Printed "Warning: Unsupported file type: notes.xyz"]).
Proof.
  split.
  - apply (unsupported_file_is_warned_about
             (configured "extracted_images") Str.utf8 corrupt_pdf index_text
             index_text "data" tt "gpt-4o" tt "data/extracted_images"
             "extracted_images" (CfgStr "extracted_images")
             (start (Folder [])));
      [reflexivity|reflexivity|discriminate].
  - apply (unsupported_file_is_warned_about
             (configured "extracted_images") Str.utf8 corrupt_pdf index_text
             index_text "data" tt "gpt-4o" tt "data/extracted_images"
             "notes.xyz" (CfgStr "extracted_images") (start (Folder [])));
      [reflexivity|reflexivity|intros _; reflexivity].
Defined.

Lemma image_directory_with_extension_is_extracted_witness :
  In (Called PDF (Str.path_join "data" "scans.pdf"))
     (trace (snd (run (configured "scans.pdf")
                      (Folder [("notes.txt", RegularFile)])))).
Proof.
  apply (image_directory_with_extension_is_extracted (configured "scans.pdf")
           Str.utf8 as_put untouched corrupt_pdf index_text index_text "data"
           tt "gpt-4o" tt
           FileProcesserFacts.corrupt_pdf_failures
           FileProcesserFacts.index_text_failures
           FileProcesserFacts.index_text_failures
           FileProcesserFacts.strict_utf8_sound
           FileProcesserFacts.corrupt_pdf_failures_shown
           FileProcesserFacts.index_text_failures_shown
           FileProcesserFacts.index_text_failures_shown
           [("notes.txt", RegularFile)] PDF
           (start (Folder [("notes.txt", RegularFile)]))).
  - reflexivity.
  - vm_compute. discriminate.
  - vm_compute. reflexivity.
  - intros names. apply Permutation_refl.
  - apply List.Forall_forall, List.forallb_forall. vm_compute. reflexivity.
  - vm_compute. reflexivity.
Defined.


End PipelineFacts.


(** ** The log of answered questions *)

Module MainFacts.

Import FileProcesser Main.

Section Facts.

Context {X W Retr Client : Type}.
Variable os_path_exists_ : string -> X -> bool.
Variable os_makedirs_ : string -> X -> result unit * X.
Variable ExcelWriter_ : string -> mode -> X -> result W * X.
Variable sheet_max_row_ : W -> X -> result Z.
Variable to_excel_ : list qa_record -> W -> bool -> Z -> X -> result unit * X.
Variable writer_close_ : W -> X -> result unit * X.
Variable generate_answer_from_vector_db :
  Retr -> string -> Z -> Client -> X -> result (string * string) * X.

Abbreviation log_to_excel :=
  (log_to_excel os_path_exists_ os_makedirs_ ExcelWriter_ sheet_max_row_
                to_excel_ writer_close_).
Variables (retriever : Retr) (openai_client : Client) (max_images : Z)
          (output_folder output_excel_file_name : string).

Abbreviation ask_question_loop :=
  (ask_question_loop os_path_exists_ os_makedirs_ ExcelWriter_ sheet_max_row_
     to_excel_ writer_close_ generate_answer_from_vector_db retriever
     openai_client max_images output_folder output_excel_file_name).
Abbreviation ask_question :=
  (ask_question os_path_exists_ os_makedirs_ ExcelWriter_ sheet_max_row_
     to_excel_ writer_close_ generate_answer_from_vector_db retriever
     openai_client max_images output_folder output_excel_file_name).

(** Open every call of a collaborator and every branch on its answer. *)
Ltac open_call :=
  match goal with
  | |- context [os_path_exists_ ?p ?x] =>
      destruct (os_path_exists_ p x) eqn:?
  | |- context [os_makedirs_ ?p ?x] =>
      destruct (os_makedirs_ p x) as [[[]|?] ?] eqn:?
  | |- context [ExcelWriter_ ?p ?m ?x] =>
      destruct (ExcelWriter_ p m x) as [[?|?] ?] eqn:?
  | |- context [sheet_max_row_ ?r ?x] =>
      destruct (sheet_max_row_ r x) as [?|?] eqn:?
  | |- context [to_excel_ ?d ?r ?h ?s ?x] =>
      destruct (to_excel_ d r h s x) as [[[]|?] ?] eqn:?
  | |- context [writer_close_ ?r ?x] =>
      destruct (writer_close_ r x) as [[[]|?] ?] eqn:?
  | |- context [is_Exception ?c] =>
      destruct (is_Exception c) eqn:?
  end.

Ltac run_log_to_excel :=
  unfold try_except_Exception, bind, with_, os_path_exists, os_makedirs,
    ExcelWriter, sheet_max_row, to_excel, writer_close, logger_info,
    logger_warning, logger_error, print;
  unfold effect, observe, emit, ret;
  cbn [ext events fst snd negb exc_cls];
  repeat (open_call; cbn [ext events fst snd negb exc_cls]).

(** X12.  With records to log, the output folder is made only when it
    is missing; unless making it fails, exactly one workbook is opened,
    at the joined path, in append mode exactly when the file exists at
    that moment, so that an existing workbook is never opened for
    overwriting; and whatever is written is the whole of the records,
    with a header row, at row 0, only into a new file. *)
Theorem log_to_excel_calls data
    (w : world X) :
  data <> [] ->
  let path := Str.path_join output_folder output_excel_file_name in
  let x1 := if os_path_exists_ output_folder (ext w) then ext w
            else snd (os_makedirs_ output_folder (ext w)) in
  let folder_there :=
    os_path_exists_ output_folder (ext w)
    || returned (fst (os_makedirs_ output_folder (ext w))) in
  exists new,
    events (snd (log_to_excel data output_folder output_excel_file_name w))
    = events w ++ new /\
    flat_map made new
    = (if os_path_exists_ output_folder (ext w) then [] else [output_folder]) /\
    flat_map opened new
    = (if folder_there
       then [(path, if os_path_exists_ path x1 then ModeAppend else ModeWrite)]
       else []) /\
    (forall d h s, In (Wrote d h s) new ->
       d = data /\ h = negb (os_path_exists_ path x1) /\ (h = true -> s = 0)).
Proof.
  intros Hdata path x1 folder_there. subst path x1 folder_there.
  rewrite <- (bool_decide_eq_false (data = [])) in Hdata.
  unfold Main.log_to_excel. rewrite Hdata.
  run_log_to_excel;
    cbn [fst snd] in *; try congruence;
    rewrite <- ?app_assoc; cbn [app];
    (eexists; split; [reflexivity|]);
    cbn [flat_map made opened app returned orb];
    (split; [reflexivity|]); (split; [reflexivity|]);
    intros d h s Hin; cbn [In] in Hin;
    repeat (destruct Hin as [Hin|Hin]; try discriminate Hin);
    try contradiction;
    injection Hin as <- <- <-; repeat split; congruence.
Qed.

(** *** Computations that raise instances of [Exception] only *)

Lemma safe_ret {A} (a : A) : fails_with_Exception (ret (S := world X) a).
Proof. intros w e w' [=]. Qed.

Lemma safe_emit ev : fails_with_Exception (emit (X := X) ev).
Proof. intros w e w' [=]. Qed.

Lemma safe_bind {A C} (m : M (world X) A) (k : A -> M (world X) C) :
  fails_with_Exception m -> (forall a, fails_with_Exception (k a)) ->
  fails_with_Exception (bind m k).
Proof.
  intros Hm Hk w e w'. unfold bind.
  destruct (m w) as [[a|e0] w1] eqn:E.
  - apply Hk.
  - intros [= <- <-]. eapply Hm; eassumption.
Qed.

Lemma safe_effect {A} ev (f : X -> result A * X) :
  fails_with_Exception f -> fails_with_Exception (effect ev f).
Proof.
  intros Hf w e w'. unfold effect.
  destruct (f (ext w)) as [r x'] eqn:E. intros [= -> <-].
  eapply Hf; eassumption.
Qed.

Lemma safe_observe {A} (f : X -> result A) :
  reads_with_Exception f -> fails_with_Exception (observe f).
Proof. intros Hf w e w'. unfold observe. intros [= H <-]. eapply Hf, H. Qed.

Lemma safe_try {A} (body : M (world X) A) handler :
  fails_with_Exception body -> (forall e, fails_with_Exception (handler e)) ->
  fails_with_Exception (try_except_Exception body handler).
Proof.
  intros Hb Hh w e w'. unfold try_except_Exception.
  destruct (body w) as [[a|e0] w1] eqn:E; [intros [=]|].
  rewrite (Hb _ _ _ E). apply Hh.
Qed.

(** A handler that returns makes the whole [try] return. *)
Lemma try_returns {A} (body : M (world X) A) handler (w : world X) :
  fails_with_Exception body ->
  (forall e w0, exists a w1, handler e w0 = (Ok a, w1)) ->
  exists a w', try_except_Exception body handler w = (Ok a, w').
Proof.
  intros Hb Hh. unfold try_except_Exception.
  destruct (body w) as [[a|e0] w1] eqn:E; [eauto|].
  rewrite (Hb _ _ _ E). apply Hh.
Qed.

(** Whatever the collaborators do, an instance of [Exception] never
    leaves [log_to_excel]. *)
Lemma log_to_excel_lets_none_out data
    (w w' : world X) e :
  log_to_excel data output_folder output_excel_file_name w = (Raise e, w') ->
  is_Exception (exc_cls e) = false.
Proof.
  unfold Main.log_to_excel. destruct (bool_decide (data = [])); [intros [=]|].
  unfold try_except_Exception.
  match goal with
  | |- context [match ?body w with _ => _ end] =>
      destruct (body w) as [[a|e0] w1]
  end; [intros [=]|].
  destruct (is_Exception (exc_cls e0)) eqn:E; [intros [=]|].
  intros [= <- _]. exact E.
Qed.

(** What a call of [log_to_excel] adds to the events: no question is
    asked, what is written is the data, and the warning about missing
    data appears only when there is none. *)
Lemma log_to_excel_events data
    (w : world X) :
  exists new,
    events (snd (log_to_excel data output_folder output_excel_file_name w))
    = events w ++ new /\
    flat_map asked new = [] /\
    (forall d h s, In (Wrote d h s) new -> d = data) /\
    (data <> [] -> ~ In (Logged WARNING "No data to log.") new).
Proof.
  unfold Main.log_to_excel.
  destruct (bool_decide (data = [])) eqn:Hdata.
  - apply bool_decide_eq_true in Hdata. eexists. split; [reflexivity|].
    split; [reflexivity|]. split; [|contradiction].
    intros d h s [[=]|[]].
  - run_log_to_excel;
      rewrite <- ?app_assoc; cbn [app];
      (eexists; split; [reflexivity|]);
      (split; [reflexivity|]);
      (split; [intros d h s Hin|intros _ Hin]); cbn [In] in Hin;
      repeat (destruct Hin as [Hin|Hin]; try discriminate Hin);
      try contradiction;
      injection Hin as <- <- <-; reflexivity.
Qed.

Hypothesis makedirs_failures :
  forall p, fails_with_Exception (os_makedirs_ p).
Hypothesis open_failures :
  forall p m, fails_with_Exception (ExcelWriter_ p m).
Hypothesis max_row_failures :
  forall r, reads_with_Exception (sheet_max_row_ r).
Hypothesis to_excel_failures :
  forall d r h s, fails_with_Exception (to_excel_ d r h s).
Hypothesis close_failures :
  forall r, fails_with_Exception (writer_close_ r).

Lemma safe_with {A} (enter : M (world X) W) (body : W -> M (world X) A) :
  fails_with_Exception enter -> (forall r, fails_with_Exception (body r)) ->
  fails_with_Exception (with_ writer_close_ enter body).
Proof.
  intros He Hb w e w'. unfold with_.
  destruct (enter w) as [[r|e0] w1] eqn:E1.
  - pose proof (safe_effect Closed (writer_close_ r) (close_failures r)) as Hc.
    fold (writer_close writer_close_ r) in Hc.
    destruct (body r w1) as [[a|e1] w2] eqn:E2;
      destruct (writer_close writer_close_ r w2) as [[[]|e2] w3] eqn:E3.
    + intros [=].
    + intros [= <- <-]. eapply Hc; eassumption.
    + intros [= <- <-]. eapply Hb; eassumption.
    + intros [= <- <-]. simpl. eapply Hc; eassumption.
  - intros [= <- <-]. eapply He; eassumption.
Qed.

Lemma log_to_excel_returns data
    (w : world X) :
  exists w',
    log_to_excel data output_folder output_excel_file_name w = (Ok tt, w').
Proof.
  unfold Main.log_to_excel. destruct (bool_decide (data = [])).
  - eexists. reflexivity.
  - match goal with
    | |- context [try_except_Exception ?body ?handler w] =>
        destruct (try_returns body handler w) as ([] & w' & Hrun)
    end; [| |eauto].
    + apply safe_bind; [apply safe_observe; intros x e [=]|]. intros found.
      apply safe_bind.
      { destruct (negb found); [|apply safe_ret].
        apply safe_effect, makedirs_failures. }
      intros _. apply safe_bind; [apply safe_observe; intros x e [=]|].
      intros there. destruct there; apply safe_with.
      * apply safe_effect, open_failures.
      * intros r. apply safe_bind;
          [apply safe_observe, max_row_failures|]. intros start_row.
        apply safe_bind; [apply safe_effect, to_excel_failures|]. intros _.
        apply safe_bind; [apply safe_emit|]. intros _. apply safe_emit.
      * apply safe_effect, open_failures.
      * intros r. apply safe_bind; [apply safe_effect, to_excel_failures|].
        intros _. apply safe_bind; [apply safe_emit|]. intros _.
        apply safe_emit.
    + intros e w0. eexists tt, _. reflexivity.
Qed.

Ltac raised_Exception :=
  repeat match goal with
         | H : os_makedirs_ _ _ = (Raise _, _) |- _ =>
             apply makedirs_failures in H
         | H : ExcelWriter_ _ _ _ = (Raise _, _) |- _ =>
             apply open_failures in H
         | H : sheet_max_row_ _ _ = Raise _ |- _ =>
             apply max_row_failures in H
         | H : to_excel_ _ _ _ _ _ = (Raise _, _) |- _ =>
             apply to_excel_failures in H
         | H : writer_close_ _ _ = (Raise _, _) |- _ =>
             apply close_failures in H
         end.

(** X11.  When the file operations fail with instances of [Exception]
    only, [log_to_excel] returns whatever happens; and with records to
    log it ends in one of two ways: with the writer closed as its last
    act, everything before having succeeded, or with a logged error
    line that carries the text of the failure. *)
Theorem log_to_excel_never_raises data
    (w : world X) :
  exists w',
    log_to_excel data output_folder output_excel_file_name w = (Ok tt, w') /\
    (data <> [] ->
     last (events w') = Some Closed \/
     exists e,
       last (events w')
       = Some (Logged ERROR ("Error logging data to Excel: " +:+ exc_str e))).
Proof.
  destruct (log_to_excel_returns data w)
    as [w' Hrun].
  exists w'. split; [exact Hrun|]. intros Hdata.
  replace w' with
    (snd (log_to_excel data output_folder output_excel_file_name w))
    by now rewrite Hrun.
  clear Hrun. rewrite <- (bool_decide_eq_false (data = [])) in Hdata.
  unfold Main.log_to_excel. rewrite Hdata.
  run_log_to_excel;
    first [ left; apply last_snoc
          | right; eexists; apply last_snoc
          | exfalso; raised_Exception; congruence ].
Qed.

(** *** The question loop, one round at a time *)

Lemma loop_end log_data (w : world X) :
  ask_question_loop [] log_data w
  = (Raise (Exc (ExceptionSubclass "EOFError") "EOF when reading a line" None),
     {| ext := ext w; events := events w ++ [Prompted prompt] |}).
Proof. reflexivity. Qed.

Lemma loop_round question stdin log_data (w : world X) :
  ask_question_loop (question :: stdin) log_data w
  = if is_exit question then
      (Ok stdin, {| ext := ext w; events := events w ++ [Prompted prompt] |})
    else
      match generate_answer_from_vector_db retriever question max_images
              openai_client (ext w) with
      | (Ok (references, response), x') =>
          match log_to_excel (log_data ++ [mkQA question response references])
                  output_folder output_excel_file_name
                  {| ext := x';
                     events :=
                       events w
                       ++ [Prompted prompt; Asked question;
                           Printed ("References:" +:+ newline +:+ references
                                    +:+ newline +:+ "Response:" +:+ newline
                                    +:+ response)] |} with
          | (Ok _, w3) => ask_question_loop stdin [] w3
          | (Raise e, w3) => (Raise e, w3)
          end
      | (Raise e, x') =>
          if is_Exception (exc_cls e) then
            ask_question_loop stdin log_data
              {| ext := x';
                 events :=
                   events w
                   ++ [Prompted prompt; Asked question;
                       Logged ERROR ("Error generating answer: "
                                     +:+ exc_str e)] |}
          else
            (Raise e,
             {| ext := x';
                events := events w ++ [Prompted prompt; Asked question] |})
      end.
Proof.
  cbn [Main.ask_question_loop]. unfold is_exit.
  unfold bind at 1. unfold emit at 1.
  destruct (String.eqb (Str.lower question) "exit"); [reflexivity|].
  unfold bind at 1. unfold try_except_Exception, bind at 1, effect.
  cbn [ext events].
  destruct (generate_answer_from_vector_db retriever question max_images
              openai_client (ext w)) as [[[references response]|e] x'].
  - unfold bind, print, emit, ret. cbn [ext events].
    rewrite <- !app_assoc. cbn [app]. reflexivity.
  - destruct (is_Exception (exc_cls e)).
    + unfold bind, logger_error, emit, ret. cbn [ext events].
      rewrite <- !app_assoc. reflexivity.
    + rewrite <- !app_assoc. reflexivity.
Qed.

(** X15.  Whatever the collaborators do, every write to the workbook
    made during a session is of exactly one record: a question that was
    typed, with the references and the response the model returned for
    it.  A question whose answer failed is not written, and the warning
    that there is nothing to log is never given. *)
Theorem one_record_per_write stdin (w : world X) :
  exists new,
    events (snd (ask_question stdin w)) = events w ++ new /\
    (forall d h s, In (Wrote d h s) new ->
       exists question response references x,
         d = [mkQA question response references] /\ In question stdin /\
         fst (generate_answer_from_vector_db retriever question max_images
                openai_client x) = Ok (references, response)) /\
    ~ In (Logged WARNING "No data to log.") new.
Proof.
  unfold Main.ask_question. revert w.
  induction stdin as [|question stdin IH]; intros w.
  - rewrite loop_end. exists [Prompted prompt]. split; [reflexivity|].
    split; [intros d h s [[=]|[]]|intros [[=]|[]]].
  - rewrite loop_round. destruct (is_exit question).
    { exists [Prompted prompt]. split; [reflexivity|].
      split; [intros d h s [[=]|[]]|intros [[=]|[]]]. }
    destruct (generate_answer_from_vector_db retriever question max_images
                openai_client (ext w)) as [[[references response]|e] x']
      eqn:Hgen.
    + match goal with
      | |- context [log_to_excel ?data _ _ ?w2] =>
          destruct (log_to_excel_events data w2)
            as (new1 & Hev & _ & Hwrote & Hwarn);
          destruct (log_to_excel data output_folder output_excel_file_name w2)
            as [[[]|e] w3]
      end; cbn [snd events] in Hev.
      * destruct (IH w3) as (new2 & Hev2 & Hwrote2 & Hwarn2).
        eexists. split; [rewrite Hev2, Hev, <- !app_assoc; reflexivity|].
        split.
        -- intros d h s Hin. cbn [app In] in Hin.
           destruct Hin as [[=]|[[=]|[[=]|Hin]]].
           apply in_app_or in Hin. destruct Hin as [Hin|Hin].
           ++ apply Hwrote in Hin. subst d.
              exists question, response, references, (ext w).
              split; [reflexivity|]. split; [now left|now rewrite Hgen].
           ++ destruct (Hwrote2 d h s Hin) as (q & r & f & x & -> & Hq & Hx).
              exists q, r, f, x. split; [reflexivity|]. split; [now right|].
              exact Hx.
        -- intros Hin. cbn [app In] in Hin.
           destruct Hin as [[=]|[[=]|[[=]|Hin]]].
           apply in_app_or in Hin. destruct Hin as [Hin|Hin].
           ++ revert Hin. apply Hwarn. discriminate.
           ++ now apply Hwarn2.
      * eexists. split; [cbn [snd]; rewrite Hev, <- !app_assoc; reflexivity|].
        split.
        -- intros d h s Hin. cbn [app In] in Hin.
           destruct Hin as [[=]|[[=]|[[=]|Hin]]].
           apply Hwrote in Hin. subst d.
           exists question, response, references, (ext w).
           split; [reflexivity|]. split; [now left|now rewrite Hgen].
        -- intros Hin. cbn [app In] in Hin.
           destruct Hin as [[=]|[[=]|[[=]|Hin]]].
           revert Hin. apply Hwarn. discriminate.
    + destruct (is_Exception (exc_cls e)).
      * match goal with
        | |- context [ask_question_loop stdin [] ?w2] =>
            destruct (IH w2) as (new2 & Hev2 & Hwrote2 & Hwarn2)
        end.
        cbn [events] in Hev2.
        eexists. split; [rewrite Hev2, <- !app_assoc; reflexivity|].
        split.
        -- intros d h s Hin. cbn [app In] in Hin.
           destruct Hin as [[=]|[[=]|[[=]|Hin]]].
           destruct (Hwrote2 d h s Hin) as (q & r & f & x & -> & Hq & Hx).
           exists q, r, f, x. split; [reflexivity|]. split; [now right|].
           exact Hx.
        -- intros Hin. cbn [app In] in Hin.
           destruct Hin as [[=]|[[=]|[[=]|Hin]]]. now apply Hwarn2.
      * eexists. split; [reflexivity|].
        split; [intros d h s [[=]|[[=]|[]]]|intros [[=]|[[=]|[]]]].
Qed.

Hypothesis generate_failures :
  forall r q k c,
    fails_with_Exception (generate_answer_from_vector_db r q k c).

(** One round on a line that is not the exit word: the question is
    asked, and the loop goes on with the lines that follow. *)
Lemma loop_goes_on question stdin (w : world X) :
  is_exit question = false ->
  exists w1,
    ask_question_loop (question :: stdin) [] w = ask_question_loop stdin [] w1 /\
    flat_map asked (events w1) = flat_map asked (events w) ++ [question].
Proof.
  intros Hq. rewrite loop_round, Hq.
  destruct (generate_answer_from_vector_db retriever question max_images
              openai_client (ext w)) as [[[references response]|e] x'] eqn:Hgen.
  - match goal with
    | |- context [log_to_excel ?data _ _ ?w2] =>
        destruct (log_to_excel_events data w2) as (new1 & Hev & Hasked & _);
        destruct (log_to_excel_returns data w2) as [w3 Hrun]
    end.
    rewrite Hrun in *. cbn [snd events] in Hev.
    exists w3. split; [reflexivity|].
    rewrite Hev, !List.flat_map_app, Hasked, app_nil_r. reflexivity.
  - rewrite (generate_failures _ _ _ _ _ _ _ Hgen).
    eexists. split; [reflexivity|].
    cbn [events]. rewrite List.flat_map_app. reflexivity.
Qed.

(** X14.  The loop stops at the first line that reads [exit] in any
    case of letters: it returns, the lines after that one are left
    unread, and the questions put to the model are the lines before it,
    each once and in order, empty lines included. *)
Theorem exit_ends_the_session before word after (w : world X) :
  Forall (fun line => is_exit line = false) before ->
  is_exit word = true ->
  exists w',
    ask_question (before ++ word :: after) w = (Ok after, w') /\
    flat_map asked (events w') = flat_map asked (events w) ++ before.
Proof.
  unfold Main.ask_question. intros Hbefore Hword. revert w.
  induction Hbefore as [|question before Hq _ IH]; intros w.
  - cbn [app]. rewrite loop_round, Hword. eexists. split; [reflexivity|].
    cbn [events]. rewrite List.flat_map_app. reflexivity.
  - cbn [app].
    destruct (loop_goes_on question (before ++ word :: after) w Hq)
      as (w1 & -> & Hasked).
    destruct (IH w1) as (w' & Hrun & Hasked').
    exists w'. split; [exact Hrun|].
    rewrite Hasked', Hasked, <- app_assoc. reflexivity.
Qed.

(** X16.  When standard input ends before any line reads [exit], every
    line has been put to the model, and the loop ends in the [EOFError]
    of [input], which nothing in [ask_question] catches. *)
Theorem input_without_exit_ends_in_EOFError stdin (w : world X) :
  Forall (fun line => is_exit line = false) stdin ->
  fst (ask_question stdin w)
  = Raise (Exc (ExceptionSubclass "EOFError") "EOF when reading a line" None) /\
  flat_map asked (events (snd (ask_question stdin w)))
  = flat_map asked (events w) ++ stdin.
Proof.
  unfold Main.ask_question. intros Hstdin. revert w.
  induction Hstdin as [|question stdin Hq _ IH]; intros w.
  - rewrite loop_end. cbn [fst snd events].
    rewrite List.flat_map_app. split; reflexivity.
  - destruct (loop_goes_on question stdin w Hq) as (w1 & -> & Hasked).
    destruct (IH w1) as [Hraise Hasked'].
    split; [exact Hraise|].
    rewrite Hasked', Hasked, <- app_assoc. reflexivity.
Qed.

End Facts.

Import Desk.

Lemma make_on_failures p : fails_with_Exception (make_on p).
Proof. intros s e s' [=]. Qed.

Lemma open_on_failures p m : fails_with_Exception (open_on p m).
Proof.
  intros s e s'. unfold open_on. destruct m.
  - destruct (exists_on p s); intros [= <- _]. reflexivity.
  - intros [=].
Qed.

Lemma rows_on_failures r : reads_with_Exception (rows_on r).
Proof. intros s e [=]. Qed.

Lemma write_on_failures d r h s : fails_with_Exception (write_on d r h s).
Proof. intros x e x' [=]. Qed.

Lemma close_on_failures r : fails_with_Exception (close_on r).
Proof. intros x e x' [=]. Qed.

Lemma answer_on_failures r q k c : fails_with_Exception (answer_on r q k c).
Proof.
  intros x e x'. unfold answer_on.
  destruct (String.eqb q ""); intros [= <- _]. reflexivity.
Qed.

Lemma log_to_excel_calls_witness :
  exists new,
    events (snd (log_on [mkQA "what" "About what" "a.txt, page 1"]
                        ["out"; "out/answers.xlsx"]))
    = [] ++ new /\
    flat_map made new = [] /\
    flat_map opened new = [("out/answers.xlsx", ModeAppend)] /\
    (forall d h s, In (Wrote d h s) new ->
       d = [mkQA "what" "About what" "a.txt, page 1"] /\
       h = false /\ (h = true -> s = 0)).
Proof.
  apply (log_to_excel_calls exists_on make_on open_on rows_on write_on close_on
           "out" "answers.xlsx" [mkQA "what" "About what" "a.txt, page 1"]
           (desk ["out"; "out/answers.xlsx"])).
  discriminate.
Defined.

Lemma log_to_excel_never_raises_witness :
  exists w',
    log_on [mkQA "what" "About what" "a.txt, page 1"] ["out"] = (Ok tt, w') /\
    ([mkQA "what" "About what" "a.txt, page 1"] <> [] ->
     last (events w') = Some Closed \/
     exists e,
       last (events w')
       = Some (Logged ERROR ("Error logging data to Excel: " +:+ exc_str e))).
Proof.
  apply (log_to_excel_never_raises exists_on make_on open_on rows_on write_on
           close_on "out" "answers.xlsx" make_on_failures open_on_failures
           rows_on_failures write_on_failures close_on_failures
           [mkQA "what" "About what" "a.txt, page 1"] (desk ["out"])).
Defined.

Lemma one_record_per_write_witness :
  exists new,
    events (snd (ask_on ["what"; "exit"] [])) = [] ++ new /\
    (forall d h s, In (Wrote d h s) new ->
       exists question response references x,
         d = [mkQA question response references] /\
         In question ["what"; "exit"] /\
         fst (answer_on tt question 3 tt x) = Ok (references, response)) /\
    ~ In (Logged WARNING "No data to log.") new.
Proof.
  apply (one_record_per_write exists_on make_on open_on rows_on write_on
           close_on answer_on tt tt 3 "out" "answers.xlsx" ["what"; "exit"]
           (desk [])).
Defined.

Lemma exit_ends_the_session_witness :
  exists w',
    ask_on (["what"; ""] ++ "EXIT" :: ["later"]) [] = (Ok ["later"], w') /\
    flat_map asked (events w') = [] ++ ["what"; ""].
Proof.
  apply (exit_ends_the_session exists_on make_on open_on rows_on write_on
           close_on answer_on tt tt 3 "out" "answers.xlsx" make_on_failures
           open_on_failures rows_on_failures write_on_failures
           close_on_failures answer_on_failures
           ["what"; ""] "EXIT" ["later"] (desk [])).
  - repeat constructor.
  - reflexivity.
Defined.

Lemma input_without_exit_ends_in_EOFError_witness :
  fst (ask_on ["what"; "exits"] [])
  = Raise (Exc (ExceptionSubclass "EOFError") "EOF when reading a line" None) /\
  flat_map asked (events (snd (ask_on ["what"; "exits"] [])))
  = [] ++ ["what"; "exits"].
Proof.
  apply (input_without_exit_ends_in_EOFError exists_on make_on open_on rows_on
           write_on close_on answer_on tt tt 3 "out" "answers.xlsx"
           make_on_failures open_on_failures rows_on_failures
           write_on_failures close_on_failures answer_on_failures
           ["what"; "exits"] (desk [])).
  repeat constructor.
Defined.

End MainFacts.
